(** * shasa-ghl: the slot grouper and the phone normaliser of [app.py]

    A shallow embedding of the pure parts of [src/app.py]:

    - [normalize_us_phone] (lines 37-41),
    - [classify_slot] (lines 43-45),
    - the grouping loop of [get_slots] and the result object it returns
      (lines 114-143).

    The request decoding and the HTTP call that come before the loop in
    [get_slots] only produce the list [all_slots]; the embedding starts
    from that list.

    The three routes are embedded as well (section [Routes]): each is a
    function of the value of [request.json] and of the replies of the
    services it calls, and gives the body and status it returns or the
    exception that leaves it.  Logging and printing are left out.

    Conventions.  A Python [str] is a [string]: a sequence of characters
    with code points below 256.  Python integers are [Z].  A Python [dict]
    is an association list in insertion order (the order [dict.keys()]
    reports).  An exception raised inside the [try] of the loop is a [None]
    of the step that raises. *)

From Stdlib Require Import String Ascii List ZArith Lia Bool Arith.
Import ListNotations.

Local Open Scope string_scope.
Local Open Scope list_scope.

(** ** The [datetime] values of Python's standard library

    [get_slots] calls [datetime.fromisoformat], [strftime("%A")] and reads
    [dt.hour].  These belong to the standard library, not to the repository.
    The loop is embedded over any pair of functions of their types (sections
    [GetSlots] and later); this module gives the pair the library provides,
    for the examples of the specification. *)

Module Datetime.

(** The fields of a [datetime.datetime].  [utcoffset] is [None] for a naive
    value and otherwise the offset of its [tzinfo], in microseconds. *)
Record datetime : Type := mk_datetime {
  year : Z;
  month : Z;
  day : Z;
  hour : Z;
  minute : Z;
  second : Z;
  microsecond : Z;
  utcoffset : option Z
}.

Definition is_digit (c : ascii) : bool :=
  (48 <=? nat_of_ascii c)%nat && (nat_of_ascii c <=? 57)%nat.

Definition digit_value (c : ascii) : Z := Z.of_nat (nat_of_ascii c - 48).

(** [parse_digits n s acc] reads exactly [n] decimal digits at the head of
    [s] and returns their value together with what follows them. *)
Fixpoint parse_digits (n : nat) (s : string) (acc : Z) : option (Z * string) :=
  match n with
  | O => Some (acc, s)
  | S n' =>
      match s with
      | String c s' =>
          if is_digit c then parse_digits n' s' (acc * 10 + digit_value c)
          else None
      | EmptyString => None
      end
  end.

Definition expect (c : ascii) (s : string) : option string :=
  match s with
  | String c' s' => if Ascii.eqb c' c then Some s' else None
  | EmptyString => None
  end.

(** [YYYY-MM-DD] at the head of the string; the rest is returned. *)
Definition parse_isoformat_date (s : string) : option (Z * Z * Z * string) :=
  match parse_digits 4 s 0 with
  | None => None
  | Some (y, s1) =>
      match expect "-" s1 with
      | None => None
      | Some s2 =>
          match parse_digits 2 s2 0 with
          | None => None
          | Some (m, s3) =>
              match expect "-" s3 with
              | None => None
              | Some s4 =>
                  match parse_digits 2 s4 0 with
                  | None => None
                  | Some (d, s5) => Some (y, m, d, s5)
                  end
              end
          end
      end
  end.

(** The fraction of a second: three or six digits to the end of the string. *)
Definition parse_fraction (s : string) : option Z :=
  match String.length s with
  | 3%nat =>
      match parse_digits 3 s 0 with
      | Some (us, _) => Some (us * 1000)%Z
      | None => None
      end
  | 6%nat =>
      match parse_digits 6 s 0 with
      | Some (us, _) => Some us
      | None => None
      end
  | _ => None
  end.

(** [HH[:MM[:SS[.fff[fff]]]]], the whole string. *)
Definition parse_hh_mm_ss_ff (s : string) : option (Z * Z * Z * Z) :=
  match parse_digits 2 s 0 with
  | None => None
  | Some (h, EmptyString) => Some (h, 0, 0, 0)%Z
  | Some (h, String c1 s1) =>
      if negb (Ascii.eqb c1 ":") then None else
      match parse_digits 2 s1 0 with
      | None => None
      | Some (m, EmptyString) => Some (h, m, 0, 0)%Z
      | Some (m, String c2 s2) =>
          if negb (Ascii.eqb c2 ":") then None else
          match parse_digits 2 s2 0 with
          | None => None
          | Some (sec, EmptyString) => Some (h, m, sec, 0)%Z
          | Some (sec, String c3 s3) =>
              if negb (Ascii.eqb c3 ".") then None else
              match parse_fraction s3 with
              | None => None
              | Some us => Some (h, m, sec, us)
              end
          end
      end
  end.

(** Splits a time string at its first ['+'] or ['-']: the text before it,
    and the sign with the text after it when there is one. *)
Fixpoint split_offset (s : string) : string * option (Z * string) :=
  match s with
  | EmptyString => (EmptyString, None)
  | String c s' =>
      if Ascii.eqb c "+" then (EmptyString, Some (1%Z, s'))
      else if Ascii.eqb c "-" then (EmptyString, Some ((-1)%Z, s'))
      else let '(t, o) := split_offset s' in (String c t, o)
  end.

Definition microseconds_of (h m s us : Z) : Z :=
  ((h * 3600 + m * 60 + s) * 1000000 + us)%Z.

(** [HH[:MM[:SS[.fff[fff]]]][+HH:MM[:SS[.ffffff]]]]: the time of day and
    the offset, if any.  An offset has 5, 8 or 15 characters after its
    sign. *)
Definition parse_isoformat_time (s : string)
  : option (Z * Z * Z * Z * option Z) :=
  let '(tstr, off) := split_offset s in
  match parse_hh_mm_ss_ff tstr with
  | None => None
  | Some (h, m, sec, us) =>
      match off with
      | None => Some (h, m, sec, us, None)
      | Some (sign, tzstr) =>
          let n := String.length tzstr in
          if negb ((n =? 5)%nat || (n =? 8)%nat || (n =? 15)%nat) then None
          else
            match parse_hh_mm_ss_ff tzstr with
            | None => None
            | Some (th, tm, ts, tus) =>
                Some (h, m, sec, us, Some (sign * microseconds_of th tm ts tus)%Z)
            end
      end
  end.

Definition is_leap (y : Z) : bool :=
  ((y mod 4 =? 0) && (negb (y mod 100 =? 0) || (y mod 400 =? 0)))%Z.

Definition days_in_month (y m : Z) : Z :=
  (if m =? 2 then (if is_leap y then 29 else 28)
   else if (m =? 4) || (m =? 6) || (m =? 9) || (m =? 11) then 30
   else 31)%Z.

Definition in_range (lo x hi : Z) : bool := ((lo <=? x) && (x <=? hi))%Z.

(** The constructor of [datetime]: it raises [ValueError] on a field out of
    range, and so does the [timezone] of an offset of 24 hours or more. *)
Definition new_datetime (y mo d h mi s us : Z) (off : option Z)
  : option datetime :=
  if in_range 1 y 9999 && in_range 1 mo 12 && in_range 1 d (days_in_month y mo)
     && in_range 0 h 23 && in_range 0 mi 59 && in_range 0 s 59
     && in_range 0 us 999999
     && match off with
        | None => true
        | Some o => ((- microseconds_of 24 0 0 0 <? o)
                     && (o <? microseconds_of 24 0 0 0))%Z
        end
  then Some (mk_datetime y mo d h mi s us off)
  else None.

(** [datetime.fromisoformat], on the format the library documents for it
    (Python 3.7 to 3.10):
    [YYYY-MM-DD[*HH[:MM[:SS[.fff[fff]]]][+HH:MM[:SS[.ffffff]]]]], where [*]
    is any one character.  [None] stands for the [ValueError] it raises.
    The date alone is a complete input; it gives midnight.  Later versions
    of the library accept further ISO 8601 forms besides these. *)
Definition fromisoformat (date_string : string) : option datetime :=
  match parse_isoformat_date date_string with
  | None => None
  | Some (y, mo, d, EmptyString) => new_datetime y mo d 0 0 0 0 None
  | Some (y, mo, d, String _ tstr) =>
      match parse_isoformat_time tstr with
      | None => None
      | Some (h, mi, s, us, off) => new_datetime y mo d h mi s us off
      end
  end.

Definition days_before_year (y : Z) : Z :=
  (let p := y - 1 in p * 365 + p / 4 - p / 100 + p / 400)%Z.

Fixpoint days_before_month_aux (y : Z) (n : nat) : Z :=
  match n with
  | O => 0%Z
  | S n' => (days_before_month_aux y n' + days_in_month y (Z.of_nat n))%Z
  end.

(** The number of days of year [y] before the first day of month [m]. *)
Definition days_before_month (y m : Z) : Z :=
  days_before_month_aux y (Z.to_nat (m - 1)).

(** The proleptic Gregorian ordinal: 1 is 0001-01-01. *)
Definition toordinal (dt : datetime) : Z :=
  (days_before_year (year dt) + days_before_month (year dt) (month dt)
   + day dt)%Z.

(** Monday is 0 and Sunday is 6. *)
Definition weekday (dt : datetime) : Z := ((toordinal dt + 6) mod 7)%Z.

Definition day_names : list string :=
  ["Monday"; "Tuesday"; "Wednesday"; "Thursday"; "Friday"; "Saturday";
   "Sunday"].

(** [dt.strftime("%A")]: the full name of the weekday (C locale). *)
Definition strftime_A (dt : datetime) : string :=
  nth (Z.to_nat (weekday dt)) day_names "".

End Datetime.

Import Datetime.


(** ** [normalize_us_phone] and [classify_slot] *)

(** [re.sub(r"[^\d]", "", phone)]: every character that is not a decimal
    digit is removed.  Below code point 256 the class [\d] is ['0']-['9']. *)
Fixpoint re_sub_non_digits (phone : string) : string :=
  match phone with
  | EmptyString => EmptyString
  | String c rest =>
      if is_digit c then String c (re_sub_non_digits rest)
      else re_sub_non_digits rest
  end.

(** [s.startswith(p)] *)
Definition startswith (s p : string) : bool := String.prefix p s.

Definition normalize_us_phone (phone : string) : string :=
  let digits := re_sub_non_digits phone in
  let digits := if negb (startswith digits "1") then ("1" ++ digits)%string else digits in
  ("+" ++ digits)%string.

Definition classify_slot (dt : datetime) : string :=
  let hour := hour dt in
  if ((8 <=? hour) && (hour <? 12))%Z then "morning" else "afternoon".

(** ** Dictionaries *)

(** A [dict] with [str] keys, in insertion order. *)
Definition dict (V : Type) : Type := list (string * V).

(** [d[k]]; [None] is the [KeyError]. *)
Fixpoint dict_get {V : Type} (d : dict V) (k : string) : option V :=
  match d with
  | [] => None
  | (k', v) :: d' => if String.eqb k' k then Some v else dict_get d' k
  end.

(** [k in d] *)
Definition dict_in {V : Type} (k : string) (d : dict V) : bool :=
  match dict_get d k with
  | Some _ => true
  | None => false
  end.

(** [d[k] = v]: a key that is present keeps its place, a new key goes to
    the end. *)
Fixpoint dict_set {V : Type} (d : dict V) (k : string) (v : V) : dict V :=
  match d with
  | [] => [(k, v)]
  | (k', v') :: d' =>
      if String.eqb k' k then (k', v) :: d' else (k', v') :: dict_set d' k v
  end.

(** [list(d.keys())] *)
Definition dict_keys {V : Type} (d : dict V) : list string := map fst d.

(** ** The grouping loop of [get_slots] *)

(** The two locals the loop mutates. *)
Record locals : Type := mk_locals {
  grouped : dict (dict (list string));
  fallback : list string
}.

(** The object under the key ["result"] of the response. *)
Record slots_result : Type := mk_result {
  r_grouped_slots : dict (dict (list string));
  r_days : list string;
  r_periods : list string;
  r_fallback : list string
}.

Inductive outcome : Type :=
| Completed
| Raised.

(** [{"morning": [], "afternoon": []}] *)
Definition new_day : dict (list string) := [("morning", []); ("afternoon", [])].

Section GetSlots.

(** The two calls into the standard library that the loop makes. *)
Variable fromisoformat : string -> option datetime.
Variable strftime_A : datetime -> string.

(** The body of the [try] (lines 119-127) on the locals [st]: the locals
    when control leaves it, and whether it left by an exception. *)
Definition try_body (st : locals) (iso_str : string) : locals * outcome :=
  match fromisoformat iso_str with
  | None => (st, Raised)
  | Some dt =>
      let weekday := strftime_A dt in
      let period := classify_slot dt in
      let grouped1 :=
        if negb (dict_in weekday (grouped st))
        then dict_set (grouped st) weekday new_day
        else grouped st in
      match dict_get grouped1 weekday with
      | None => (mk_locals grouped1 (fallback st), Raised)
      | Some record =>
          match dict_get record period with
          | None => (mk_locals grouped1 (fallback st), Raised)
          | Some bucket =>
              let record' := dict_set record period (bucket ++ [iso_str]) in
              (mk_locals (dict_set grouped1 weekday record')
                         (fallback st ++ [iso_str]),
               Completed)
          end
      end
  end.

(** One iteration: [except Exception: continue] keeps the locals as the
    body left them. *)
Definition loop_body (st : locals) (iso_str : string) : locals :=
  fst (try_body st iso_str).

(** Lines 114-129. *)
Definition group_loop (all_slots : list string) : locals :=
  fold_left loop_body all_slots (mk_locals [] []).

(** Lines 114-143: the loop and the result built from its locals. *)
Definition get_slots (all_slots : list string) : slots_result :=
  let st := group_loop all_slots in
  mk_result (grouped st) (dict_keys (grouped st)) ["morning"; "afternoon"]
            (fallback st).

End GetSlots.

(** [grouped[d][p]], and the empty list when a key is missing. *)
Definition bucket_of (g : dict (dict (list string))) (d p : string)
  : list string :=
  match dict_get g d with
  | None => []
  | Some record =>
      match dict_get record p with
      | None => []
      | Some bucket => bucket
      end
  end.

(** The sum of the lengths of all buckets of all weekdays. *)
Definition record_size (record : dict (list string)) : nat :=
  list_sum (map (fun kv => List.length (snd kv)) record).

Definition grouped_size (g : dict (dict (list string))) : nat :=
  list_sum (map (fun kv => record_size (snd kv)) g).


(** What the claims compare the result with. *)

(** The weekdays in the order in which they are first met: the spec's
    "first-insertion order". *)
Definition first_seen (l : list string) : list string :=
  fold_left (fun acc x => if existsb (String.eqb x) acc then acc else acc ++ [x])
            l [].

(** The first position of [l] at which [f] holds. *)
Fixpoint find_first {A : Type} (f : A -> bool) (l : list A) : option nat :=
  match l with
  | [] => None
  | x :: l' =>
      if f x then Some O
      else match find_first f l' with
           | Some n => Some (S n)
           | None => None
           end
  end.

(** Every weekday record has the two buckets, morning first. *)
Definition well_formed (g : dict (dict (list string))) : Prop :=
  forall d record, dict_get g d = Some record ->
    exists a b, record = [("morning", a); ("afternoon", b)].

Section GetSlotsSpec.

Variable fromisoformat : string -> option datetime.
Variable strftime_A : datetime -> string.

(** The entry parses. *)
Definition valid (s : string) : bool :=
  match fromisoformat s with
  | Some _ => true
  | None => false
  end.

(** The entry parses to weekday [d] and period [p]. *)
Definition lands (d p : string) (s : string) : bool :=
  match fromisoformat s with
  | Some dt => String.eqb (strftime_A dt) d && String.eqb (classify_slot dt) p
  | None => false
  end.

(** The entry parses to weekday [d]. *)
Definition on_day (d : string) (s : string) : bool :=
  match fromisoformat s with
  | Some dt => String.eqb (strftime_A dt) d
  | None => false
  end.

(** The weekdays of the entries that parse, in input order. *)
Definition weekdays (l : list string) : list string :=
  flat_map (fun s => match fromisoformat s with
                     | Some dt => [strftime_A dt]
                     | None => []
                     end) l.

(** What holds of the locals [st] once the entries [l] have been seen. *)
Record invariant (l : list string) (st : locals) : Prop := mk_invariant {
  inv_well_formed : well_formed (grouped st);
  inv_fallback : fallback st = filter valid l;
  inv_bucket : forall d p, bucket_of (grouped st) d p = filter (lands d p) l;
  inv_keys : dict_keys (grouped st) = first_seen (weekdays l);
  inv_size : grouped_size (grouped st) = List.length (fallback st)
}.

End GetSlotsSpec.

(** ** JSON values and the Python operations the routes apply to them

    [request.json], the bodies of the upstream replies and the objects
    handed to [jsonify] are JSON values.  An object is a [dict]: its keys in
    order.  The operations below are the ones the three routes use, each
    with the exception Python raises when the value has the wrong type. *)

(** A Python [float]: not a number, an infinity, or [m * 2^e]. *)
Inductive pyfloat : Type :=
| FNan
| FInf (negative : bool)
| FFinite (m e : Z).

#[warnings="-register-all"]
Inductive json : Type :=
| JNull
| JBool (b : bool)
| JInt (n : Z)
| JFloat (f : pyfloat)
| JStr (s : string)
| JList (l : list json)
| JDict (d : list (string * json)).

Inductive exn : Type :=
| ValueError
| TypeError
| IndexError
| KeyError
| AttributeError
| OverflowError.

(** A value, or the exception raised instead. *)
Inductive result (A : Type) : Type :=
| Ok (a : A)
| Raise (e : exn).

Arguments Ok {A} a.
Arguments Raise {A} e.

Definition bind {A B : Type} (r : result A) (k : A -> result B) : result B :=
  match r with
  | Ok a => k a
  | Raise e => Raise e
  end.

Notation "x <- r ;; k" := (bind r (fun x => k))
  (at level 61, r at next level, right associativity).

(** [bool(v)]: what [not v] and [v or d] test. *)
Definition py_bool (v : json) : bool :=
  match v with
  | JNull => false
  | JBool b => b
  | JInt n => negb (n =? 0)%Z
  | JFloat (FFinite m _) => negb (m =? 0)%Z
  | JFloat _ => true
  | JStr s => negb (String.eqb s "")
  | JList l => match l with [] => false | _ :: _ => true end
  | JDict d => match d with [] => false | _ :: _ => true end
  end.

(** [v.get(k, default)]: only a [dict] has the method. *)
Definition py_get (v : json) (k : string) (default : json) : result json :=
  match v with
  | JDict d =>
      Ok (match dict_get d k with
          | Some x => x
          | None => default
          end)
  | _ => Raise AttributeError
  end.

(** [v[0]] *)
Definition py_getitem_0 (v : json) : result json :=
  match v with
  | JList [] => Raise IndexError
  | JList (x :: _) => Ok x
  | JStr EmptyString => Raise IndexError
  | JStr (String c _) => Ok (JStr (String c EmptyString))
  | JDict _ => Raise KeyError
  | _ => Raise TypeError
  end.

(** [v[k]] for a [str] key [k] *)
Definition py_getitem (v : json) (k : string) : result json :=
  match v with
  | JDict d =>
      match dict_get d k with
      | Some x => Ok x
      | None => Raise KeyError
      end
  | _ => Raise TypeError
  end.

(** [k in v] for a [str] [k]: a key of a [dict], an element of a [list], a
    substring of a [str]. *)
Definition py_contains (k : string) (v : json) : result bool :=
  match v with
  | JDict d => Ok (dict_in k d)
  | JList l =>
      Ok (existsb (fun x => match x with
                            | JStr s => String.eqb s k
                            | _ => false
                            end) l)
  | JStr s =>
      Ok (match String.index 0 k s with
          | Some _ => true
          | None => false
          end)
  | _ => Raise TypeError
  end.

(** The characters of a [str], each as a [str]. *)
Fixpoint characters (s : string) : list json :=
  match s with
  | EmptyString => []
  | String c s' => JStr (String c EmptyString) :: characters s'
  end.

(** What iterating over [v] yields: what [list.extend(v)] appends. *)
Definition py_iter (v : json) : result (list json) :=
  match v with
  | JList l => Ok l
  | JStr s => Ok (characters s)
  | JDict d => Ok (map (fun kv => JStr (fst kv)) d)
  | _ => Raise TypeError
  end.

(** [v.items()] *)
Definition py_items (v : json) : result (list (string * json)) :=
  match v with
  | JDict d => Ok d
  | _ => Raise AttributeError
  end.

(** [int(f)] for a [float]: the value truncated toward zero. *)
Definition int_of_float (f : pyfloat) : result Z :=
  match f with
  | FNan => Raise ValueError
  | FInf _ => Raise OverflowError
  | FFinite m e =>
      Ok (if (0 <=? e)%Z then m * 2 ^ e else Z.quot m (2 ^ (- e)))%Z
  end.

(** A plain string of decimal digits as a number: [int] on such strings,
    for the examples. *)
Definition decimal (s : string) : option Z :=
  match s with
  | EmptyString => None
  | _ =>
      match parse_digits (String.length s) s 0 with
      | Some (n, _) => Some n
      | None => None
      end
  end.

(** The replies of the services the routes call with [requests]. *)
Inductive http_reply : Type :=
| Failed (details : string)
| Reply (status_code : Z) (body : json).

(** What a route does with a request: it returns a body with a status, or
    an exception leaves it. *)
Inductive answer : Type :=
| Respond (status : Z) (body : json)
| Crash (e : exn).

(** The module-level configuration read from the environment. *)
Record config : Type := mk_config {
  GHL_CALENDAR_ID : option string;
  GHL_TIMEZONE : string;
  TEAM_MEMBER_ID : option string;
  VAPI_AGENT_ID : option string
}.

(** The value of [os.getenv]: a [str] or [None]. *)
Definition json_of_env (o : option string) : json :=
  match o with
  | Some s => JStr s
  | None => JNull
  end.

(** Lines 71-74: [if ts < 1e11: ts *= 1000]. *)
Definition to_millis (ts : Z) : Z :=
  if (ts <? 100000000000)%Z then (ts * 1000)%Z else ts.

(** [except (ValueError, TypeError, IndexError)] *)
Definition caught (e : exn) : bool :=
  match e with
  | ValueError | TypeError | IndexError => true
  | _ => false
  end.

(** [normalize_us_phone(v)]: [re.sub] wants a [str]. *)
Definition normalize_json (v : json) : result json :=
  match v with
  | JStr s => Ok (JStr (normalize_us_phone s))
  | _ => Raise TypeError
  end.

Definition json_of_strings (l : list string) : json := JList (map JStr l).

(** The [grouped] dictionary as the object handed to [jsonify]. *)
Definition json_of_grouped (g : dict (dict (list string))) : json :=
  JDict (map (fun day =>
                (fst day,
                 JDict (map (fun b => (fst b, json_of_strings (snd b)))
                            (snd day))))
             g).

(** The strings among the values. *)
Fixpoint strings_of (l : list json) : list string :=
  match l with
  | [] => []
  | JStr s :: l' => s :: strings_of l'
  | _ :: l' => strings_of l'
  end.

Section Routes.

(** [int(s)] for a [str]: the number, or [None] for its [ValueError]. *)
Variable int_of_str : string -> option Z.
(** [str(v)], as an f-string formats it. *)
Variable py_str : json -> string.
Variable fromisoformat : string -> option datetime.
Variable strftime_A : datetime -> string.
Variable cfg : config.
(** The three calls made with [requests]: each maps what is sent to the
    reply.  [Failed] is an exception of the call or of [.json()]. *)
Variable ghl_slots : json -> http_reply.
Variable ghl_book : json -> http_reply.
Variable vapi_call : json -> http_reply.

(** [int(v)] *)
Definition py_int (v : json) : result Z :=
  match v with
  | JBool b => Ok (if b then 1 else 0)%Z
  | JInt n => Ok n
  | JFloat f => int_of_float f
  | JStr s =>
      match int_of_str s with
      | Some n => Ok n
      | None => Raise ValueError
      end
  | _ => Raise TypeError
  end.

(** Lines 54-60, the body of the first [try] of [get_slots]. *)
Definition decode_request (data : json) : result (Z * Z * json) :=
  message <- py_get data "message" (JDict []) ;;
  calls <- py_get message "toolCalls" (JList [JDict []]) ;;
  tool_call <- py_getitem_0 calls ;;
  function <- py_get tool_call "function" (JDict []) ;;
  arguments <- py_get function "arguments" (JDict []) ;;
  start_date <- py_get arguments "startDate" JNull ;;
  start_ts <- py_int start_date ;;
  end_date <- py_get arguments "endDate" JNull ;;
  end_ts <- py_int end_date ;;
  tool_call_id <- py_get tool_call "id" (JStr "unknown") ;;
  Ok (start_ts, end_ts, tool_call_id).

(** Lines 110-112: the [slots] of every value of [slot_data], in order. *)
Fixpoint extend_slots (items : list (string * json)) (all_slots : list json)
  : result (list json) :=
  match items with
  | [] => Ok all_slots
  | (_, val) :: items' =>
      slots <- py_get val "slots" (JList []) ;;
      more <- py_iter slots ;;
      extend_slots items' (all_slots ++ more)
  end.

Definition collect_slots (slot_data : json) : result (list json) :=
  items <- py_items slot_data ;;
  extend_slots items [].

(** One iteration of the loop on any value: [fromisoformat] raises
    [TypeError] on a value that is not a [str], and the loop goes on. *)
Definition loop_body_json (st : locals) (v : json) : locals :=
  match v with
  | JStr iso_str => loop_body fromisoformat strftime_A st iso_str
  | _ => st
  end.

(** Lines 114-143 on the values [collect_slots] gathered. *)
Definition get_slots_json (all_slots : list json) : slots_result :=
  let st := fold_left loop_body_json all_slots (mk_locals [] []) in
  mk_result (grouped st) (dict_keys (grouped st)) ["morning"; "afternoon"]
            (fallback st).

Definition invalid_dates_body : json :=
  JDict [("results",
          JList [JDict [("toolCallId", JStr "unknown");
                        ("error", JStr "Invalid or missing startDate/endDate")]])].

Definition fetch_failed_body (tool_call_id : json) (details : string) : json :=
  JDict [("results",
          JList [JDict [("toolCallId", tool_call_id);
                        ("error", JStr "Failed to fetch or parse GHL response");
                        ("details", JStr details)]])].

Definition ghl_error_body (tool_call_id : json) (slot_data : json) : json :=
  JDict [("results",
          JList [JDict [("toolCallId", tool_call_id);
                        ("error",
                         JStr ("GHL API error: " ++ py_str slot_data)%string)]])].

Definition slots_body (tool_call_id : json) (r : slots_result) : json :=
  JDict [("results",
          JList [JDict [("toolCallId", tool_call_id);
                        ("result",
                         JDict [("grouped_slots", json_of_grouped (r_grouped_slots r));
                                ("days", json_of_strings (r_days r));
                                ("periods", json_of_strings (r_periods r));
                                ("fallback", json_of_strings (r_fallback r))])]])].

(** The query of lines 76-82. *)
Definition slots_params (start_ts end_ts : Z) : json :=
  JDict [("calendarId", json_of_env (GHL_CALENDAR_ID cfg));
         ("startDate", JInt start_ts);
         ("endDate", JInt end_ts);
         ("timezone", JStr (GHL_TIMEZONE cfg));
         ("userId", json_of_env (TEAM_MEMBER_ID cfg))].

(** The route [/slots], lines 48-143, on the value of [request.json]. *)
Definition get_slots_route (request_json : json) : answer :=
  let data := if py_bool request_json then request_json else JDict [] in
  match decode_request data with
  | Raise e => if caught e then Respond 200 invalid_dates_body else Crash e
  | Ok (start_ts, end_ts, tool_call_id) =>
      match ghl_slots (slots_params (to_millis start_ts) (to_millis end_ts)) with
      | Failed details => Respond 200 (fetch_failed_body tool_call_id details)
      | Reply status_code slot_data =>
          if negb (status_code =? 200)%Z
          then Respond 200 (ghl_error_body tool_call_id slot_data)
          else
            match collect_slots slot_data with
            | Raise e => Crash e
            | Ok all_slots =>
                Respond 200 (slots_body tool_call_id (get_slots_json all_slots))
            end
      end
  end.

(** Lines 147-166 of [book_appointment]: the object sent to the calendar,
    or [None] when the route answers 400 before it builds one. *)
Definition booking_data (payload : json) : result (option json) :=
  has_phone <- py_contains "phone" payload ;;
  missing <- (if negb has_phone then Ok true
              else has_start <- py_contains "startTime" payload ;;
                   Ok (negb has_start)) ;;
  if (missing : bool) then Ok None
  else
    raw_phone <- py_getitem payload "phone" ;;
    phone <- normalize_json raw_phone ;;
    match payload with
    | JDict d =>
        let payload := dict_set d "phone" phone in
        start_time <- py_getitem (JDict payload) "startTime" ;;
        phone <- py_getitem (JDict payload) "phone" ;;
        let booking :=
          [("calendarId", json_of_env (GHL_CALENDAR_ID cfg));
           ("selectedSlot", start_time);
           ("selectedTimezone", JStr (GHL_TIMEZONE cfg));
           ("phone", phone)] in
        booking <-
          (if dict_in "email" payload
           then email <- py_getitem (JDict payload) "email" ;;
                Ok (dict_set booking "email" email)
           else Ok booking) ;;
        booking <-
          (if dict_in "name" payload
           then name <- py_getitem (JDict payload) "name" ;;
                Ok (dict_set booking "name" name)
           else Ok booking) ;;
        Ok (Some (JDict booking))
    | _ => Raise TypeError
    end.

(** The route [/book], lines 146-184. *)
Definition book_appointment (payload : json) : answer :=
  match booking_data payload with
  | Raise e => Crash e
  | Ok None =>
      Respond 400
        (JDict [("error",
                 JStr "Missing required fields: 'phone' and/or 'startTime'")])
  | Ok (Some booking) =>
      match ghl_book booking with
      | Failed details =>
          Respond 500 (JDict [("error", JStr "Booking request failed");
                              ("details", JStr details)])
      | Reply status_code data =>
          if negb (status_code =? 200)%Z
          then Respond 500 (JDict [("error", JStr "Failed to book");
                                   ("details", data)])
          else Respond 200 data
      end
  end.

(** Lines 189-212 of [ghl_new_lead_webhook]: the object sent to the voice
    service, or [None] when the route answers 400. *)
Definition lead_call (data : json) : result (option json) :=
  if negb (py_bool data) then Ok None
  else
    has_phone <- py_contains "phone" data ;;
    if negb (has_phone : bool) then Ok None
    else
      name <- py_get data "name" (JStr "Unknown") ;;
      raw_phone <- py_getitem data "phone" ;;
      phone <- normalize_json raw_phone ;;
      email <- py_get data "email" (JStr "ghost@fallback.ai") ;;
      Ok (Some (JDict [("agent_id", json_of_env (VAPI_AGENT_ID cfg));
                       ("phone", phone);
                       ("metadata",
                        JDict [("name", name);
                               ("email", email);
                               ("source", JStr "Facebook Lead")])])).

(** The route [/webhook/lead], lines 187-219. *)
Definition ghl_new_lead_webhook (data : json) : answer :=
  match lead_call data with
  | Raise e => Crash e
  | Ok None => Respond 400 (JDict [("error", JStr "Missing required lead data")])
  | Ok (Some call) =>
      match vapi_call call with
      | Failed details =>
          Respond 500 (JDict [("error", JStr "VAPI call failed");
                              ("details", JStr details)])
      | Reply _ body =>
          Respond 200 (JDict [("status", JStr "VAPI call triggered");
                              ("vapi_response", body)])
      end
  end.

End Routes.

(** ** [normalize_us_phone] on any [str]

    A [str] of Python is a sequence of Unicode code points, and [\d] in a
    [str] pattern matches every decimal digit of Unicode (the category Nd),
    not only ['0']-['9'].  The function is given here on code points, over
    any table of the decimal digits; [normalize_us_phone] above is its
    restriction to code points below 256. *)

Module Unicode.

Definition str : Type := list N.

(** The code points of a [string]. *)
Definition of_string (s : string) : str :=
  map N_of_ascii (list_ascii_of_string s).

(** [s.startswith(p)] *)
Fixpoint startswith (s p : str) {struct p} : bool :=
  match p with
  | [] => true
  | c :: p' =>
      match s with
      | [] => false
      | c' :: s' => (c' =? c)%N && startswith s' p'
      end
  end.

Section Digits.

(** The decimal digits of Unicode: what [\d] matches. *)
Variable is_decimal : N -> bool.

(** [re.sub(r"[^\d]", "", phone)] *)
Definition re_sub_non_digits (phone : str) : str := filter is_decimal phone.

Definition normalize_us_phone (phone : str) : str :=
  let digits := re_sub_non_digits phone in
  let digits :=
    if negb (startswith digits (of_string "1"))
    then of_string "1" ++ digits
    else digits in
  of_string "+" ++ digits.

End Digits.

End Unicode.

(** ** The routes as programs

    A route answers, or it sends an object to a service and goes on with
    the reply.  A program that is an [Answer] makes no call. *)
Inductive program : Type :=
| Answer (a : answer)
| Call (sent : json) (continue : http_reply -> program).

(** The answer of a program when [service] replies to its calls. *)
Fixpoint run (service : json -> http_reply) (p : program) : answer :=
  match p with
  | Answer a => a
  | Call sent continue => run service (continue (service sent))
  end.

Section Programs.

Variable int_of_str : string -> option Z.
Variable py_str : json -> string.
Variable fromisoformat : string -> option datetime.
Variable strftime_A : datetime -> string.
Variable cfg : config.

(** The route [/slots], lines 48-143: the call of line 85 is its only one. *)
Definition get_slots_program (request_json : json) : program :=
  let data := if py_bool request_json then request_json else JDict [] in
  match decode_request int_of_str data with
  | Raise e =>
      Answer (if caught e then Respond 200 invalid_dates_body else Crash e)
  | Ok (start_ts, end_ts, tool_call_id) =>
      Call (slots_params cfg (to_millis start_ts) (to_millis end_ts))
           (fun reply =>
              Answer
                match reply with
                | Failed details =>
                    Respond 200 (fetch_failed_body tool_call_id details)
                | Reply status_code slot_data =>
                    if negb (status_code =? 200)%Z
                    then Respond 200 (ghl_error_body py_str tool_call_id slot_data)
                    else
                      match collect_slots slot_data with
                      | Raise e => Crash e
                      | Ok all_slots =>
                          Respond 200
                            (slots_body tool_call_id
                               (get_slots_json fromisoformat strftime_A all_slots))
                      end
                end)
  end.

(** The route [/book], lines 146-184: the call of line 173 is its only
    one. *)
Definition book_program (payload : json) : program :=
  match booking_data cfg payload with
  | Raise e => Answer (Crash e)
  | Ok None =>
      Answer
        (Respond 400
           (JDict [("error",
                    JStr "Missing required fields: 'phone' and/or 'startTime'")]))
  | Ok (Some booking) =>
      Call booking
           (fun reply =>
              Answer
                match reply with
                | Failed details =>
                    Respond 500 (JDict [("error", JStr "Booking request failed");
                                        ("details", JStr details)])
                | Reply status_code data =>
                    if negb (status_code =? 200)%Z
                    then Respond 500 (JDict [("error", JStr "Failed to book");
                                             ("details", data)])
                    else Respond 200 data
                end)
  end.

(** The route [/webhook/lead], lines 187-219: the call of line 201 is its
    only one. *)
Definition lead_program (data : json) : program :=
  match lead_call cfg data with
  | Raise e => Answer (Crash e)
  | Ok None =>
      Answer (Respond 400 (JDict [("error", JStr "Missing required lead data")]))
  | Ok (Some call) =>
      Call call
           (fun reply =>
              Answer
                match reply with
                | Failed details =>
                    Respond 500 (JDict [("error", JStr "VAPI call failed");
                                        ("details", JStr details)])
                | Reply _ body =>
                    Respond 200 (JDict [("status", JStr "VAPI call triggered");
                                        ("vapi_response", body)])
                end)
  end.

End Programs.

(** A value of [slot_data] of the expected form: an object whose
    ["slots"], when present, is a list. *)
Definition day_ok (val : json) : bool :=
  match val with
  | JDict v =>
      match dict_get v "slots" with
      | None => true
      | Some (JList _) => true
      | Some _ => false
      end
  | _ => false
  end.

(** The slots such a value lists. *)
Definition day_slots (val : json) : list json :=
  match val with
  | JDict v =>
      match dict_get v "slots" with
      | Some (JList l) => l
      | _ => []
      end
  | _ => []
  end.

(** Values for the examples: a configuration, a request of the voice
    agent, and a reply of the calendar service. *)
Definition example_config : config :=
  mk_config (Some "cal-1") "America/Los_Angeles" (Some "user-1") (Some "agent-7").

Definition example_request (arguments : dict json) : json :=
  JDict [("message",
          JDict [("toolCalls",
                  JList [JDict [("id", JStr "call_1");
                                ("function",
                                 JDict [("name", JStr "get_slots");
                                        ("arguments", JDict arguments)])]])])].

Definition example_reply : dict json :=
  [("2024-06-10",
    JDict [("slots", JList [JStr "2024-06-10T09:00:00-07:00"; JInt 3])]);
   ("2024-06-11", JDict []);
   ("2024-06-12", JDict [("slots", JList [JStr "2024-06-12T14:00:00-07:00"])])].

(** ** The library model: ranges *)

Lemma new_datetime_hour (y mo d h mi s us : Z) (off : option Z) (dt : datetime) :
  new_datetime y mo d h mi s us off = Some dt ->
  hour dt = h /\ (0 <= h <= 23)%Z.
Proof.
  unfold new_datetime, in_range.
  destruct (Z.leb_spec 0 h); destruct (Z.leb_spec h 23);
    rewrite ?andb_false_r, ?andb_false_l; cbn [andb];
    try match goal with
        | |- context [if ?b then _ else _] => destruct b
        end;
    try discriminate.
  intros [= <-]. simpl. lia.
Qed.

(** A value that [fromisoformat] returns has its hour in 0..23. *)
Lemma fromisoformat_hour_range (s : string) (dt : datetime) :
  fromisoformat s = Some dt -> (0 <= hour dt <= 23)%Z.
Proof.
  unfold fromisoformat.
  destruct (parse_isoformat_date s) as [[[[y mo] d] rest]|]; [|discriminate].
  destruct rest as [|sep tstr].
  - intros H. apply new_datetime_hour in H. lia.
  - destruct (parse_isoformat_time tstr) as [[[[[h mi] sec] us] off]|];
      [|discriminate].
    intros H. apply new_datetime_hour in H. lia.
Qed.

(** [strftime_A] returns one of the seven names. *)
Lemma strftime_A_day_name (dt : datetime) : In (strftime_A dt) day_names.
Proof.
  unfold strftime_A. apply nth_In.
  unfold weekday. change (List.length day_names) with 7.
  pose proof (Z.mod_pos_bound (toordinal dt + 6) 7 eq_refl). lia.
Qed.

(** ** Dictionaries: lookup after update *)

Lemma dict_get_set {V : Type} (d : dict V) (k k' : string) (v : V) :
  dict_get (dict_set d k v) k' = if String.eqb k k' then Some v else dict_get d k'.
Proof.
  induction d as [|[k0 v0] d IH]; simpl.
  - destruct (String.eqb_spec k k'); reflexivity.
  - destruct (String.eqb_spec k0 k) as [->|Hne]; simpl.
    + destruct (String.eqb_spec k k'); reflexivity.
    + rewrite IH.
      destruct (String.eqb_spec k0 k') as [->|Hne'].
      * destruct (String.eqb_spec k k'); [congruence | reflexivity].
      * reflexivity.
Qed.

Lemma dict_set_absent {V : Type} (d : dict V) (k : string) (v : V) :
  dict_get d k = None -> dict_set d k v = d ++ [(k, v)].
Proof.
  induction d as [|[k0 v0] d IH]; simpl; intros H; [reflexivity|].
  destruct (String.eqb k0 k); [discriminate|].
  now rewrite IH.
Qed.

Lemma dict_keys_set_present {V : Type} (d : dict V) (k : string) (v v0 : V) :
  dict_get d k = Some v0 -> dict_keys (dict_set d k v) = dict_keys d.
Proof.
  induction d as [|[k1 v1] d IH]; simpl; intros H; [discriminate|].
  destruct (String.eqb k1 k); simpl; [reflexivity|].
  now rewrite IH.
Qed.

Lemma dict_get_app_last {V : Type} (d : dict V) (k : string) (v : V) :
  dict_get d k = None -> dict_get (d ++ [(k, v)]) k = Some v.
Proof.
  induction d as [|[k1 v1] d IH]; simpl; intros H.
  - now rewrite String.eqb_refl.
  - destruct (String.eqb k1 k); [discriminate | auto].
Qed.

Lemma dict_set_app_last {V : Type} (d : dict V) (k : string) (v v' : V) :
  dict_get d k = None -> dict_set (d ++ [(k, v)]) k v' = d ++ [(k, v')].
Proof.
  induction d as [|[k1 v1] d IH]; simpl; intros H.
  - now rewrite String.eqb_refl.
  - destruct (String.eqb k1 k); [discriminate|].
    now rewrite IH.
Qed.

Lemma dict_in_keys {V : Type} (d : dict V) (k : string) :
  dict_in k d = existsb (String.eqb k) (dict_keys d).
Proof.
  unfold dict_in.
  induction d as [|[k1 v1] d IH]; simpl; [reflexivity|].
  rewrite (String.eqb_sym k k1).
  destruct (String.eqb k1 k); simpl; [reflexivity | exact IH].
Qed.

(** The sum of a measure over the values, after an update. *)
Lemma dict_sum_set {V : Type} (f : V -> nat) (d : dict V) (k : string) (v : V) :
  list_sum (map (fun kv => f (snd kv)) (dict_set d k v))
  + match dict_get d k with Some o => f o | None => 0 end
  = list_sum (map (fun kv => f (snd kv)) d) + f v.
Proof.
  induction d as [|[k1 v1] d IH]; simpl; [lia|].
  destruct (String.eqb k1 k); simpl; lia.
Qed.

(** ** One iteration of the loop *)

Lemma classify_slot_cases (dt : datetime) :
  classify_slot dt = "morning" \/ classify_slot dt = "afternoon".
Proof.
  unfold classify_slot.
  destruct ((8 <=? hour dt)%Z && (hour dt <? 12)%Z); auto.
Qed.

Lemma bucket_of_set (g : dict (dict (list string))) (w d p : string)
      (record : dict (list string)) :
  bucket_of (dict_set g w record) d p
  = if String.eqb w d
    then match dict_get record p with Some b => b | None => [] end
    else bucket_of g d p.
Proof.
  unfold bucket_of. rewrite dict_get_set.
  destruct (String.eqb w d); reflexivity.
Qed.

Section Iteration.

Variable fromisoformat : string -> option datetime.
Variable strftime_A : datetime -> string.


Lemma try_body_invalid (st : locals) (s : string) :
  fromisoformat s = None -> try_body fromisoformat strftime_A st s = (st, Raised).
Proof. intros H. unfold try_body. now rewrite H. Qed.

(** The weekday is new: its record is created with the two empty buckets
    and the entry goes to one of them. *)
Lemma try_body_new_day (st : locals) (s : string) (dt : datetime) :
  fromisoformat s = Some dt ->
  dict_get (grouped st) (strftime_A dt) = None ->
  try_body fromisoformat strftime_A st s
  = (mk_locals
       (grouped st ++ [(strftime_A dt,
                        dict_set new_day (classify_slot dt) ([] ++ [s]))])
       (fallback st ++ [s]),
     Completed).
Proof.
  intros Hp Hg. unfold try_body. rewrite Hp. cbv zeta.
  unfold dict_in. rewrite Hg. cbn [negb].
  rewrite (dict_set_absent _ _ new_day Hg).
  rewrite (dict_get_app_last _ _ new_day Hg).
  destruct (classify_slot_cases dt) as [E|E]; rewrite E;
    cbn [dict_get new_day String.eqb Ascii.eqb Bool.eqb];
    rewrite (dict_set_app_last _ _ new_day _ Hg); reflexivity.
Qed.

(** The weekday is known: the entry goes to the end of its bucket. *)
Lemma try_body_known_day (st : locals) (s : string) (dt : datetime)
      (a b : list string) :
  fromisoformat s = Some dt ->
  dict_get (grouped st) (strftime_A dt) = Some [("morning", a); ("afternoon", b)] ->
  try_body fromisoformat strftime_A st s
  = (mk_locals
       (dict_set (grouped st) (strftime_A dt)
          (if String.eqb (classify_slot dt) "morning"
           then [("morning", a ++ [s]); ("afternoon", b)]
           else [("morning", a); ("afternoon", b ++ [s])]))
       (fallback st ++ [s]),
     Completed).
Proof.
  intros Hp Hg. unfold try_body. rewrite Hp. cbv zeta.
  unfold dict_in. rewrite Hg. cbn [negb]. rewrite Hg.
  destruct (classify_slot_cases dt) as [E|E]; rewrite E; reflexivity.
Qed.

(** With well-formed records the body raises exactly when the parse does. *)
Lemma try_body_outcome (st : locals) (s : string) :
  well_formed (grouped st) ->
  snd (try_body fromisoformat strftime_A st s) = if valid fromisoformat s then Completed else Raised.
Proof.
  intros Hwf. unfold valid.
  destruct (fromisoformat s) as [dt|] eqn:Hp.
  - destruct (dict_get (grouped st) (strftime_A dt)) as [record|] eqn:Hg.
    + destruct (Hwf _ _ Hg) as (a & b & ->).
      now rewrite (try_body_known_day st s dt a b Hp Hg).
    + now rewrite (try_body_new_day st s dt Hp Hg).
  - now rewrite try_body_invalid.
Qed.

End Iteration.

(** ** The loop invariant *)

Lemma first_seen_snoc (l : list string) (x : string) :
  first_seen (l ++ [x])
  = if existsb (String.eqb x) (first_seen l) then first_seen l
    else first_seen l ++ [x].
Proof. unfold first_seen. now rewrite fold_left_app. Qed.

Lemma filter_snoc {A : Type} (f : A -> bool) (l : list A) (x : A) :
  filter f (l ++ [x]) = filter f l ++ (if f x then [x] else []).
Proof. rewrite filter_app. simpl. now destruct (f x). Qed.

Lemma record_get_after (a b : list string) (c p s : string) :
  c = "morning" \/ c = "afternoon" ->
  match dict_get (if String.eqb c "morning"
                  then [("morning", a ++ [s]); ("afternoon", b)]
                  else [("morning", a); ("afternoon", b ++ [s])]) p with
  | Some x => x
  | None => []
  end
  = match dict_get [("morning", a); ("afternoon", b)] p with
    | Some x => x
    | None => []
    end ++ (if String.eqb c p then [s] else []).
Proof.
  intros [-> | ->].
  - change (String.eqb "morning" "morning") with true. cbv iota.
    cbn [dict_get].
    destruct (String.eqb_spec "morning" p) as [<-|N1]; [reflexivity|].
    destruct (String.eqb "afternoon" p); now rewrite app_nil_r.
  - change (String.eqb "afternoon" "morning") with false. cbv iota.
    cbn [dict_get].
    destruct (String.eqb_spec "morning" p) as [<-|N1].
    + change (String.eqb "afternoon" "morning") with false.
      now rewrite app_nil_r.
    + destruct (String.eqb "afternoon" p); reflexivity.
Qed.

Lemma new_day_get_after (c p s : string) :
  match dict_get (dict_set new_day c ([] ++ [s])) p with
  | Some x => x
  | None => []
  end
  = [] ++ (if String.eqb c p then [s] else []).
Proof.
  rewrite dict_get_set.
  destruct (String.eqb c p); [reflexivity|].
  unfold new_day. cbn [dict_get].
  destruct (String.eqb "morning" p); [reflexivity|].
  destruct (String.eqb "afternoon" p); reflexivity.
Qed.

Lemma record_size_after (a b : list string) (c s : string) :
  record_size (if String.eqb c "morning"
               then [("morning", a ++ [s]); ("afternoon", b)]
               else [("morning", a); ("afternoon", b ++ [s])])
  = S (record_size [("morning", a); ("afternoon", b)]).
Proof.
  destruct (String.eqb c "morning"); unfold record_size; cbn [map snd list_sum];
    rewrite length_app; simpl; lia.
Qed.

Lemma new_day_size_after (c s : string) :
  c = "morning" \/ c = "afternoon" ->
  record_size (dict_set new_day c ([] ++ [s])) = 1.
Proof. intros [-> | ->]; reflexivity. Qed.

Section Invariant.

Variable fromisoformat : string -> option datetime.
Variable strftime_A : datetime -> string.

Lemma weekdays_snoc (l : list string) (s : string) :
  weekdays fromisoformat strftime_A (l ++ [s])
  = weekdays fromisoformat strftime_A l
    ++ match fromisoformat s with
       | Some dt => [strftime_A dt]
       | None => []
       end.
Proof.
  unfold weekdays. rewrite flat_map_app. simpl. now rewrite app_nil_r.
Qed.

Lemma group_loop_snoc (l : list string) (s : string) :
  group_loop fromisoformat strftime_A (l ++ [s])
  = loop_body fromisoformat strftime_A (group_loop fromisoformat strftime_A l) s.
Proof. unfold group_loop. now rewrite fold_left_app. Qed.

Lemma invariant_init :
  invariant fromisoformat strftime_A [] (mk_locals [] []).
Proof.
  constructor; simpl; try reflexivity.
  intros d record H. discriminate.
Qed.

Lemma well_formed_set (g : dict (dict (list string))) (w : string)
      (a b : list string) :
  well_formed g ->
  well_formed (dict_set g w [("morning", a); ("afternoon", b)]).
Proof.
  intros Hwf d record. rewrite dict_get_set.
  destruct (String.eqb w d).
  - intros [= <-]. now exists a, b.
  - apply Hwf.
Qed.

Lemma invariant_step (l : list string) (st : locals) (s : string) :
  invariant fromisoformat strftime_A l st ->
  invariant fromisoformat strftime_A (l ++ [s])
            (loop_body fromisoformat strftime_A st s).
Proof.
  intros [Hwf Hfb Hbk Hkeys Hsize]. unfold loop_body.
  destruct (fromisoformat s) as [dt|] eqn:Hp.
  2:{ rewrite (try_body_invalid _ _ st s Hp). cbn [fst].
      assert (Hv : valid fromisoformat s = false) by (unfold valid; now rewrite Hp).
      assert (Hl : forall d p, lands fromisoformat strftime_A d p s = false)
        by (intros; unfold lands; now rewrite Hp).
      constructor; auto.
      - rewrite filter_snoc, Hv, app_nil_r. exact Hfb.
      - intros d p. rewrite filter_snoc, Hl, app_nil_r. apply Hbk.
      - rewrite weekdays_snoc, Hp, app_nil_r. exact Hkeys. }
  set (w := strftime_A dt) in *.
  assert (Hlands : forall d p,
             filter (lands fromisoformat strftime_A d p) (l ++ [s])
             = filter (lands fromisoformat strftime_A d p) l
               ++ (if String.eqb w d && String.eqb (classify_slot dt) p
                   then [s] else [])).
  { intros d p. rewrite filter_snoc. f_equal. unfold lands. now rewrite Hp. }
  assert (Hvalid : filter (valid fromisoformat) (l ++ [s])
                   = filter (valid fromisoformat) l ++ [s]).
  { rewrite filter_snoc. f_equal. unfold valid. now rewrite Hp. }
  destruct (dict_get (grouped st) w) as [record|] eqn:Hg.
  - destruct (Hwf _ _ Hg) as (a & b & ->).
    rewrite (try_body_known_day fromisoformat strftime_A st s dt a b Hp Hg).
    cbn [fst]. fold w.
    pose proof (Hbk w "morning") as Hm. pose proof (Hbk w "afternoon") as Ha.
    unfold bucket_of in Hm, Ha. rewrite Hg in Hm, Ha. simpl in Hm, Ha.
    constructor; cbn [grouped fallback].
    + destruct (String.eqb (classify_slot dt) "morning");
        now apply well_formed_set.
    + now rewrite Hvalid, Hfb.
    + intros d p. rewrite Hlands, bucket_of_set.
      destruct (String.eqb_spec w d) as [<-|Hne]; cbn [andb].
      2:{ now rewrite Hbk, app_nil_r. }
      rewrite <- Hbk. unfold bucket_of. rewrite Hg.
      apply record_get_after, classify_slot_cases.
    + rewrite weekdays_snoc, Hp, first_seen_snoc, <- Hkeys, <- dict_in_keys.
      unfold dict_in. fold w. rewrite Hg.
      eapply dict_keys_set_present; eassumption.
    + rewrite length_app. simpl.
      pose proof (dict_sum_set record_size (grouped st) w
                    (if String.eqb (classify_slot dt) "morning"
                     then [("morning", a ++ [s]); ("afternoon", b)]
                     else [("morning", a); ("afternoon", b ++ [s])])) as Hsum.
      rewrite Hg in Hsum. rewrite record_size_after in Hsum.
      unfold grouped_size in *. lia.
  - rewrite (try_body_new_day fromisoformat strftime_A st s dt Hp Hg).
    cbn [fst]. fold w.
    assert (Hempty : forall p, filter (lands fromisoformat strftime_A w p) l = []).
    { intros p. rewrite <- Hbk. unfold bucket_of. now rewrite Hg. }
    constructor; cbn [grouped fallback].
    + intros d record. rewrite <- (dict_set_absent _ _ _ Hg), dict_get_set.
      destruct (String.eqb w d); [|apply Hwf].
      intros [= <-].
      destruct (classify_slot_cases dt) as [E|E]; rewrite E; simpl;
        eexists; eexists; reflexivity.
    + now rewrite Hvalid, Hfb.
    + intros d p. rewrite Hlands, <- (dict_set_absent _ _ _ Hg), bucket_of_set.
      destruct (String.eqb_spec w d) as [<-|Hne]; cbn [andb].
      2:{ now rewrite Hbk, app_nil_r. }
      rewrite Hempty. apply new_day_get_after.
    + rewrite weekdays_snoc, Hp, first_seen_snoc, <- Hkeys, <- dict_in_keys.
      unfold dict_in. fold w. rewrite Hg.
      unfold dict_keys. now rewrite map_app.
    + rewrite length_app. cbn [List.length]. unfold grouped_size in *.
      rewrite map_app, list_sum_app. cbn [map snd list_sum].
      rewrite (new_day_size_after _ _ (classify_slot_cases dt)).
      change (list_sum [1]) with 1. lia.
Qed.

(** The invariant holds of the locals the loop ends with. *)
Lemma invariant_group_loop (l : list string) :
  invariant fromisoformat strftime_A l (group_loop fromisoformat strftime_A l).
Proof.
  induction l as [|s l IH] using rev_ind.
  - exact invariant_init.
  - rewrite group_loop_snoc. now apply invariant_step.
Qed.

End Invariant.

(** ** First-seen order *)

Lemma existsb_eqb_In (x : string) (l : list string) :
  existsb (String.eqb x) l = true <-> In x l.
Proof.
  rewrite existsb_exists. split.
  - intros (y & Hy & E). apply String.eqb_eq in E. now subst.
  - intros H. exists x. split; [exact H | apply String.eqb_refl].
Qed.

Lemma first_seen_In (x : string) (l : list string) :
  In x (first_seen l) <-> In x l.
Proof.
  revert x. induction l as [|y l IH] using rev_ind; intros x; [reflexivity|].
  rewrite first_seen_snoc, in_app_iff. simpl.
  destruct (existsb (String.eqb y) (first_seen l)) eqn:E.
  - apply existsb_eqb_In, IH in E. rewrite IH.
    split; [tauto | intros [H | [<- | []]]; assumption].
  - rewrite in_app_iff, IH. simpl. tauto.
Qed.

Lemma first_seen_NoDup (l : list string) : NoDup (first_seen l).
Proof.
  induction l as [|y l IH] using rev_ind; [constructor|].
  rewrite first_seen_snoc.
  destruct (existsb (String.eqb y) (first_seen l)) eqn:E; [exact IH|].
  apply NoDup_app; [exact IH | repeat constructor; auto |].
  intros x Hx [<- | []].
  apply existsb_eqb_In in Hx. congruence.
Qed.

Lemma find_first_bound {A : Type} (f : A -> bool) (l : list A) (n : nat) :
  find_first f l = Some n -> n < List.length l.
Proof.
  revert n. induction l as [|y l IH]; simpl; intros n H; [discriminate|].
  destruct (f y).
  - injection H as <-. lia.
  - destruct (find_first f l) as [m|]; [|discriminate].
    injection H as <-. specialize (IH m eq_refl). lia.
Qed.

Lemma find_first_None {A : Type} (f : A -> bool) (l : list A) :
  find_first f l = None <-> forall x, In x l -> f x = false.
Proof.
  induction l as [|y l IH]; simpl.
  - split; [intros _ x [] | reflexivity].
  - destruct (f y) eqn:Hy.
    + split; [discriminate|]. intros H.
      rewrite (H y (or_introl eq_refl)) in Hy. discriminate.
    + destruct (find_first f l) as [m|].
      * split; [discriminate|]. intros H.
        enough (Some m = None) by discriminate.
        apply IH. intros x Hx. apply H. now right.
      * split; [|reflexivity]. intros _ x [<-|Hx]; [exact Hy|].
        now apply (proj1 IH).
Qed.

Lemma find_first_snoc {A : Type} (f : A -> bool) (l : list A) (y : A) :
  find_first f (l ++ [y])
  = match find_first f l with
    | Some n => Some n
    | None => if f y then Some (List.length l) else None
    end.
Proof.
  induction l as [|z l IH]; simpl.
  - now destruct (f y).
  - destruct (f z); [reflexivity|].
    rewrite IH. destruct (find_first f l); [reflexivity|].
    now destruct (f y).
Qed.

(** ** The result of [get_slots] *)

(** Two entries that pass a filter keep their relative order in it. *)
Lemma filter_keeps_order {A : Type} (f : A -> bool) (l : list A)
      (i j : nat) (x y : A) :
  i < j ->
  nth_error l i = Some x -> nth_error l j = Some y ->
  f x = true -> f y = true ->
  exists i' j', i' < j'
    /\ nth_error (filter f l) i' = Some x
    /\ nth_error (filter f l) j' = Some y.
Proof.
  intros Hij Hi Hj Hx Hy.
  destruct (nth_error_split l i Hi) as (l1 & l2 & -> & Hlen).
  rewrite nth_error_app2 in Hj by lia.
  replace (j - List.length l1) with (S (j - i - 1)) in Hj by lia.
  simpl in Hj.
  destruct (nth_error_split l2 _ Hj) as (l3 & l4 & -> & Hlen').
  exists (List.length (filter f l1)),
         (List.length (filter f l1) + S (List.length (filter f l3))).
  rewrite filter_app. simpl. rewrite Hx, filter_app. simpl. rewrite Hy.
  split; [lia|]. split.
  - rewrite nth_error_app2 by lia. now rewrite Nat.sub_diag.
  - rewrite nth_error_app2 by lia.
    replace (List.length (filter f l1) + S (List.length (filter f l3))
             - List.length (filter f l1))
      with (S (List.length (filter f l3))) by lia.
    simpl. rewrite nth_error_app2 by lia. now rewrite Nat.sub_diag.
Qed.

(** With distinct keys, a sum over the entries of a dictionary is the sum
    over its keys of what the lookups return. *)
Lemma dict_sum_by_keys {V : Type} (f : V -> nat) (d : dict V) :
  NoDup (dict_keys d) ->
  list_sum (map (fun kv => f (snd kv)) d)
  = list_sum (map (fun k => match dict_get d k with
                            | Some v => f v
                            | None => 0
                            end) (dict_keys d)).
Proof.
  induction d as [|[k v] d IH]; simpl; intros Hnd; [reflexivity|].
  inversion Hnd as [|? ? Hnotin Hnd']; subst.
  rewrite String.eqb_refl, (IH Hnd'). f_equal. f_equal.
  apply map_ext_in. intros k' Hk'.
  destruct (String.eqb_spec k k') as [->|Hne]; [contradiction | reflexivity].
Qed.

Section Result.

Variable fromisoformat : string -> option datetime.
Variable strftime_A : datetime -> string.

Lemma get_slots_fallback (l : list string) :
  r_fallback (get_slots fromisoformat strftime_A l)
  = filter (valid fromisoformat) l.
Proof. apply (inv_fallback _ _ _ _ (invariant_group_loop _ _ l)). Qed.

Lemma get_slots_bucket (l : list string) (d p : string) :
  bucket_of (r_grouped_slots (get_slots fromisoformat strftime_A l)) d p
  = filter (lands fromisoformat strftime_A d p) l.
Proof. apply (inv_bucket _ _ _ _ (invariant_group_loop _ _ l)). Qed.

Lemma get_slots_days (l : list string) :
  r_days (get_slots fromisoformat strftime_A l)
  = first_seen (weekdays fromisoformat strftime_A l).
Proof. apply (inv_keys _ _ _ _ (invariant_group_loop _ _ l)). Qed.

Lemma get_slots_well_formed (l : list string) :
  well_formed (r_grouped_slots (get_slots fromisoformat strftime_A l)).
Proof. apply (inv_well_formed _ _ _ _ (invariant_group_loop _ _ l)). Qed.

Lemma get_slots_size (l : list string) :
  grouped_size (r_grouped_slots (get_slots fromisoformat strftime_A l))
  = List.length (r_fallback (get_slots fromisoformat strftime_A l)).
Proof. apply (inv_size _ _ _ _ (invariant_group_loop _ _ l)). Qed.

Lemma In_weekdays (d : string) (l : list string) :
  In d (weekdays fromisoformat strftime_A l)
  <-> exists s dt, In s l /\ fromisoformat s = Some dt /\ strftime_A dt = d.
Proof.
  unfold weekdays. rewrite in_flat_map. split.
  - intros (s & Hs & Hd). destruct (fromisoformat s) as [dt|] eqn:Hp.
    + destruct Hd as [<- | []]. now exists s, dt.
    + destruct Hd.
  - intros (s & dt & Hs & Hp & <-). exists s. rewrite Hp. simpl. auto.
Qed.

Lemma on_day_weekdays (d : string) (l : list string) :
  In d (weekdays fromisoformat strftime_A l)
  <-> exists s, In s l /\ on_day fromisoformat strftime_A d s = true.
Proof.
  rewrite In_weekdays. unfold on_day. split.
  - intros (s & dt & Hin & Hp & <-). exists s.
    rewrite Hp. split; [exact Hin | apply String.eqb_refl].
  - intros (s & Hin & H). destruct (fromisoformat s) as [dt|] eqn:Hp;
      [|discriminate].
    apply String.eqb_eq in H. now exists s, dt.
Qed.

(** The keys of [grouped] stand in the order of the first valid entry of
    each weekday in the input. *)
Lemma days_order (l : list string) (i j : nat) (di dj : string) :
  i < j ->
  nth_error (first_seen (weekdays fromisoformat strftime_A l)) i = Some di ->
  nth_error (first_seen (weekdays fromisoformat strftime_A l)) j = Some dj ->
  exists a b,
    find_first (on_day fromisoformat strftime_A di) l = Some a
    /\ find_first (on_day fromisoformat strftime_A dj) l = Some b
    /\ a < b.
Proof.
  revert i j di dj.
  induction l as [|s l IH] using rev_ind; intros i j di dj Hij Hi Hj.
  - destruct i; discriminate.
  - rewrite weekdays_snoc in Hi, Hj.
    assert (Hold : forall i j di dj, i < j ->
               nth_error (first_seen (weekdays fromisoformat strftime_A l)) i = Some di ->
               nth_error (first_seen (weekdays fromisoformat strftime_A l)) j = Some dj ->
               exists a b,
                 find_first (on_day fromisoformat strftime_A di) (l ++ [s]) = Some a
                 /\ find_first (on_day fromisoformat strftime_A dj) (l ++ [s]) = Some b
                 /\ a < b).
    { intros i0 j0 d1 d2 H0 H1 H2.
      destruct (IH i0 j0 d1 d2 H0 H1 H2) as (a & b & Ha & Hb & Hab).
      exists a, b. rewrite !find_first_snoc, Ha, Hb. auto. }
    destruct (fromisoformat s) as [dt|] eqn:Hp.
    2:{ rewrite app_nil_r in Hi, Hj. eauto. }
    rewrite first_seen_snoc in Hi, Hj.
    destruct (existsb (String.eqb (strftime_A dt))
                (first_seen (weekdays fromisoformat strftime_A l))) eqn:E;
      [eauto|].
    assert (Hnew : ~ In (strftime_A dt) (weekdays fromisoformat strftime_A l)).
    { rewrite <- first_seen_In, <- existsb_eqb_In. congruence. }
    destruct (Nat.lt_ge_cases j
                (List.length (first_seen (weekdays fromisoformat strftime_A l))))
      as [Hlt|Hge].
    + rewrite nth_error_app1 in Hi, Hj by lia. eauto.
    + rewrite nth_error_app2 in Hj by lia.
      destruct (j - List.length (first_seen (weekdays fromisoformat strftime_A l)))
        as [|k] eqn:Ek; [|destruct k; discriminate].
      injection Hj as <-.
      rewrite nth_error_app1 in Hi by lia.
      assert (Hdi : In di (weekdays fromisoformat strftime_A l)).
      { apply first_seen_In. eapply nth_error_In; eassumption. }
      destruct (find_first (on_day fromisoformat strftime_A di) l) as [a|] eqn:Ha.
      2:{ apply on_day_weekdays in Hdi. destruct Hdi as (s0 & Hin & Hs0).
          rewrite find_first_None in Ha. rewrite (Ha s0 Hin) in Hs0.
          discriminate. }
      assert (Hnone : find_first (on_day fromisoformat strftime_A (strftime_A dt)) l
                      = None).
      { apply find_first_None. intros x Hx.
        destruct (on_day fromisoformat strftime_A (strftime_A dt) x) eqn:Ex;
          [|reflexivity].
        exfalso. apply Hnew. apply on_day_weekdays. eauto. }
      exists a, (List.length l).
      rewrite !find_first_snoc, Ha, Hnone.
      unfold on_day at 1. rewrite Hp, String.eqb_refl.
      repeat split. eapply find_first_bound; eassumption.
Qed.

Lemma lands_true (d p s : string) :
  lands fromisoformat strftime_A d p s = true
  <-> exists dt, fromisoformat s = Some dt /\ strftime_A dt = d
                 /\ classify_slot dt = p.
Proof.
  unfold lands. destruct (fromisoformat s) as [dt|].
  - rewrite andb_true_iff, !String.eqb_eq. split.
    + intros [H1 H2]. now exists dt.
    + intros (dt' & [= <-] & H1 & H2). auto.
  - split; [discriminate | intros (dt & H & _); discriminate].
Qed.

Lemma valid_true (s : string) :
  valid fromisoformat s = true <-> exists dt, fromisoformat s = Some dt.
Proof.
  unfold valid. destruct (fromisoformat s) as [dt|].
  - split; [now exists dt | reflexivity].
  - split; [discriminate | intros [dt H]; discriminate].
Qed.

(** An entry that does not parse leaves no trace in the locals. *)
Lemma loop_skips_invalid (l : list string) (st : locals) :
  fold_left (loop_body fromisoformat strftime_A) l st
  = fold_left (loop_body fromisoformat strftime_A)
              (filter (valid fromisoformat) l) st.
Proof.
  revert st. induction l as [|s l IH]; intros st; [reflexivity|].
  simpl. unfold valid at 1.
  destruct (fromisoformat s) as [dt|] eqn:Hp.
  - simpl. apply IH.
  - unfold loop_body at 2. rewrite (try_body_invalid _ _ st s Hp). apply IH.
Qed.

End Result.

(** ** The claims *)

(** C1: a parsed timestamp is classified as "morning" exactly when its hour
    is in [8, 12) and as "afternoon" for every other hour, which for a value
    of [fromisoformat] means 0-7 and 12-23; the grouper puts the entry in
    the bucket of that period and in no other bucket of its weekday.  Hour 8
    is "morning"; hours 12 and 7 are "afternoon". *)
Theorem C1_classify_slot_morning_hours :
  (forall dt, classify_slot dt = "morning" <-> (8 <= hour dt < 12)%Z)
  /\ (forall dt, classify_slot dt = "afternoon" <-> ~ (8 <= hour dt < 12)%Z)
  /\ (forall (parse : string -> option datetime) (name : datetime -> string)
             (l : list string) (s : string) (dt : datetime) (p : string),
         In s l -> parse s = Some dt ->
         (In s (bucket_of (r_grouped_slots (get_slots parse name l)) (name dt) p)
          <-> p = classify_slot dt))
  /\ (forall dt, hour dt = 8%Z -> classify_slot dt = "morning")
  /\ (forall dt, hour dt = 12%Z -> classify_slot dt = "afternoon")
  /\ (forall dt, hour dt = 7%Z -> classify_slot dt = "afternoon")
  /\ option_map classify_slot (fromisoformat "2024-06-10T08:00:00") = Some "morning"
  /\ option_map classify_slot (fromisoformat "2024-06-10T12:00:00") = Some "afternoon"
  /\ option_map classify_slot (fromisoformat "2024-06-10T07:59:00") = Some "afternoon"
  /\ (forall s dt,
         fromisoformat s = Some dt ->
         (classify_slot dt = "afternoon"
          <-> (0 <= hour dt <= 7 \/ 12 <= hour dt <= 23)%Z)).
Proof.
  assert (Hm : forall dt, classify_slot dt = "morning" <-> (8 <= hour dt < 12)%Z).
  { intros dt. unfold classify_slot.
    destruct ((8 <=? hour dt)%Z && (hour dt <? 12)%Z) eqn:E.
    - apply andb_true_iff in E. destruct E as [E1 E2].
      apply Z.leb_le in E1. apply Z.ltb_lt in E2. tauto.
    - split; [discriminate|]. intros [H1 H2].
      apply Z.leb_le in H1. apply Z.ltb_lt in H2.
      rewrite H1, H2 in E. discriminate. }
  assert (Ha : forall dt, classify_slot dt = "afternoon" <-> ~ (8 <= hour dt < 12)%Z).
  { intros dt. rewrite <- Hm.
    destruct (classify_slot_cases dt) as [E|E]; rewrite E;
      split; congruence. }
  split; [exact Hm|]. split; [exact Ha|]. split.
  { intros parse name l s dt p Hin Hp.
    rewrite get_slots_bucket, filter_In, lands_true. split.
    - intros (_ & dt' & Hp' & _ & Hc). congruence.
    - intros ->. eauto. }
  split; [intros dt H; apply Hm; lia|].
  split; [intros dt H; apply Ha; lia|].
  split; [intros dt H; apply Ha; lia|].
  split; [reflexivity|]. split; [reflexivity|]. split; [reflexivity|].
  intros s dt Hp. apply fromisoformat_hour_range in Hp.
  rewrite Ha. lia.
Qed.

Lemma C1_witness :
  In "2024-06-10T09:00:00"
     (bucket_of (r_grouped_slots
                   (get_slots fromisoformat strftime_A
                      ["2024-06-10T14:30:00"; "2024-06-10T09:00:00"]))
                "Monday" "morning")
  /\ ~ In "2024-06-10T09:00:00"
       (bucket_of (r_grouped_slots
                     (get_slots fromisoformat strftime_A
                        ["2024-06-10T14:30:00"; "2024-06-10T09:00:00"]))
                  "Monday" "afternoon").
Proof.
  pose proof (proj1 (proj2 (proj2 C1_classify_slot_morning_hours))
                fromisoformat strftime_A
                ["2024-06-10T14:30:00"; "2024-06-10T09:00:00"]
                "2024-06-10T09:00:00"
                (mk_datetime 2024 6 10 9 0 0 0 None)) as H.
  split.
  - apply (H "morning"); [simpl; auto | reflexivity | reflexivity].
  - intros Hin. apply (H "afternoon") in Hin;
      [discriminate | simpl; auto | reflexivity].
Defined.

(** C2: the length of [fallback] is the sum of the lengths of
    [grouped[d][p]] over all weekday keys [d] and both periods [p], and a
    string occurs in [fallback] if and only if it occurs in some
    [grouped[d][p]]. *)
Theorem C2_fallback_matches_grouped :
  forall (parse : string -> option datetime) (name : datetime -> string)
         (l : list string),
    List.length (r_fallback (get_slots parse name l))
    = list_sum
        (map (fun d =>
                list_sum
                  (map (fun p =>
                          List.length
                            (bucket_of (r_grouped_slots (get_slots parse name l)) d p))
                       (r_periods (get_slots parse name l))))
             (r_days (get_slots parse name l)))
    /\ List.length (r_fallback (get_slots parse name l))
       = grouped_size (r_grouped_slots (get_slots parse name l))
    /\ (forall s,
          In s (r_fallback (get_slots parse name l))
          <-> exists d p,
                In d (r_days (get_slots parse name l))
                /\ In p (r_periods (get_slots parse name l))
                /\ In s (bucket_of (r_grouped_slots (get_slots parse name l)) d p)).
Proof.
  intros parse name l.
  pose proof (get_slots_well_formed parse name l) as Hwf.
  pose proof (get_slots_days parse name l) as Hdays.
  split; [|split].
  - rewrite <- get_slots_size. unfold grouped_size.
    rewrite dict_sum_by_keys.
    2:{ change (NoDup (r_days (get_slots parse name l))).
        rewrite Hdays. apply first_seen_NoDup. }
    f_equal. apply map_ext. intros d. unfold bucket_of.
    destruct (dict_get (r_grouped_slots (get_slots parse name l)) d)
      as [record|] eqn:Hg; [|reflexivity].
    destruct (Hwf _ _ Hg) as (a & b & ->). reflexivity.
  - symmetry. apply get_slots_size.
  - intros s. rewrite get_slots_fallback, filter_In, valid_true. split.
    + intros (Hin & dt & Hp).
      exists (name dt), (classify_slot dt). split; [|split].
      * rewrite Hdays, first_seen_In, In_weekdays. eauto.
      * destruct (classify_slot_cases dt) as [E|E]; rewrite E; simpl; auto.
      * rewrite get_slots_bucket, filter_In, lands_true. eauto.
    + intros (d & p & _ & _ & Hb).
      rewrite get_slots_bucket, filter_In, lands_true in Hb.
      destruct Hb as (Hin & dt & Hp & _). eauto.
Qed.

(** C3: the loop never fails.  The body of the [try] raises exactly when
    the entry does not parse, and then the locals are left as they were: the
    entry is in no bucket and not in [fallback], and the result is the one
    the other entries give without it. *)
Theorem C3_unparseable_entries_are_skipped :
  (forall (parse : string -> option datetime) (name : datetime -> string),
      (forall l s,
          snd (try_body parse name (group_loop parse name l) s) = Raised
          <-> parse s = None)
      /\ (forall st s, parse s = None -> loop_body parse name st s = st)
      /\ (forall l1 s l2,
             parse s = None ->
             get_slots parse name (l1 ++ s :: l2) = get_slots parse name (l1 ++ l2))
      /\ (forall l,
             get_slots parse name l
             = get_slots parse name (filter (valid parse) l))
      /\ (forall l s,
             parse s = None ->
             ~ In s (r_fallback (get_slots parse name l))
             /\ forall d p,
                 ~ In s (bucket_of (r_grouped_slots (get_slots parse name l)) d p)))
  /\ get_slots fromisoformat strftime_A
       ["not-a-date"; "2024-06-10T09:00:00"; "garbage"]
     = mk_result
         [("Monday", [("morning", ["2024-06-10T09:00:00"]); ("afternoon", [])])]
         ["Monday"] ["morning"; "afternoon"] ["2024-06-10T09:00:00"].
Proof.
  split; [|reflexivity].
  intros parse name.
  assert (Hfilter : forall l,
             get_slots parse name l
             = get_slots parse name (filter (valid parse) l)).
  { intros l. unfold get_slots, group_loop.
    now rewrite (loop_skips_invalid parse name l). }
  split; [|split; [|split; [|split]]].
  - intros l s.
    rewrite (try_body_outcome parse name _ s
               (inv_well_formed _ _ _ _ (invariant_group_loop parse name l))).
    unfold valid. destruct (parse s); split; congruence.
  - intros st s Hp. unfold loop_body. now rewrite try_body_invalid.
  - intros l1 s l2 Hp.
    rewrite (Hfilter (l1 ++ s :: l2)), (Hfilter (l1 ++ l2)), !filter_app.
    simpl. unfold valid at 2. now rewrite Hp.
  - exact Hfilter.
  - intros l s Hp. split.
    + rewrite get_slots_fallback, filter_In, valid_true.
      intros (_ & dt & H). congruence.
    + intros d p. rewrite get_slots_bucket, filter_In, lands_true.
      intros (_ & dt & H & _). congruence.
Qed.

Lemma C3_witness :
  get_slots fromisoformat strftime_A
    (["2024-06-10T09:00:00"] ++ "garbage" :: ["2024-06-11T14:00:00"])
  = get_slots fromisoformat strftime_A
      (["2024-06-10T09:00:00"] ++ ["2024-06-11T14:00:00"]).
Proof.
  apply (proj1 (proj2 (proj2 (proj1 C3_unparseable_entries_are_skipped
                                fromisoformat strftime_A)))).
  reflexivity.
Defined.

(** C4: on the empty input the result has an empty [grouped] mapping, no
    days, the periods ["morning"; "afternoon"] and an empty [fallback]; the
    periods are this constant for every input. *)
Theorem C4_empty_input_and_constant_periods :
  forall (parse : string -> option datetime) (name : datetime -> string),
    get_slots parse name [] = mk_result [] [] ["morning"; "afternoon"] []
    /\ forall l, r_periods (get_slots parse name l) = ["morning"; "afternoon"].
Proof. intros parse name. split; [reflexivity | intros l; reflexivity]. Qed.

(** C5: every bucket and [fallback] keep the input order.  [fallback] is
    the input without the entries that do not parse, a bucket is the input
    restricted to the entries of its weekday and period, and two valid
    entries at positions [i < j] of the input that land in the same bucket
    stand there at positions [i' < j']. *)
Theorem C5_input_order_is_preserved :
  forall (parse : string -> option datetime) (name : datetime -> string)
         (l : list string),
    r_fallback (get_slots parse name l) = filter (valid parse) l
    /\ (forall d p,
           bucket_of (r_grouped_slots (get_slots parse name l)) d p
           = filter (lands parse name d p) l)
    /\ (forall i j si sj di dj,
           i < j ->
           nth_error l i = Some si -> nth_error l j = Some sj ->
           parse si = Some di -> parse sj = Some dj ->
           name di = name dj -> classify_slot di = classify_slot dj ->
           exists i' j',
             i' < j'
             /\ nth_error (bucket_of (r_grouped_slots (get_slots parse name l))
                                     (name di) (classify_slot di)) i' = Some si
             /\ nth_error (bucket_of (r_grouped_slots (get_slots parse name l))
                                     (name di) (classify_slot di)) j' = Some sj)
    /\ (forall i j si sj,
           i < j ->
           nth_error l i = Some si -> nth_error l j = Some sj ->
           valid parse si = true -> valid parse sj = true ->
           exists i' j',
             i' < j'
             /\ nth_error (r_fallback (get_slots parse name l)) i' = Some si
             /\ nth_error (r_fallback (get_slots parse name l)) j' = Some sj).
Proof.
  intros parse name l.
  split; [apply get_slots_fallback|].
  split; [apply get_slots_bucket|].
  split.
  - intros i j si sj di dj Hij Hi Hj Hpi Hpj Hd Hc.
    rewrite get_slots_bucket.
    apply (filter_keeps_order _ l i j si sj Hij Hi Hj).
    + apply lands_true. eauto.
    + apply lands_true. exists dj. auto.
  - intros i j si sj Hij Hi Hj Hvi Hvj.
    rewrite get_slots_fallback.
    now apply (filter_keeps_order _ l i j si sj).
Qed.

Lemma C5_witness :
  exists i' j',
    i' < j'
    /\ nth_error
         (bucket_of
            (r_grouped_slots
               (get_slots fromisoformat strftime_A
                  ["2024-06-10T09:00:00"; "2024-06-11T09:30:00"; "bad";
                   "2024-06-10T10:15:00"]))
            "Monday" "morning") i'
       = Some "2024-06-10T09:00:00"
    /\ nth_error
         (bucket_of
            (r_grouped_slots
               (get_slots fromisoformat strftime_A
                  ["2024-06-10T09:00:00"; "2024-06-11T09:30:00"; "bad";
                   "2024-06-10T10:15:00"]))
            "Monday" "morning") j'
       = Some "2024-06-10T10:15:00".
Proof.
  exact (proj1 (proj2 (proj2 (C5_input_order_is_preserved
                                fromisoformat strftime_A
                                ["2024-06-10T09:00:00"; "2024-06-11T09:30:00";
                                 "bad"; "2024-06-10T10:15:00"])))
           0 3 "2024-06-10T09:00:00" "2024-06-10T10:15:00"
           (mk_datetime 2024 6 10 9 0 0 0 None)
           (mk_datetime 2024 6 10 10 15 0 0 None)
           (Nat.lt_0_succ 2) eq_refl eq_refl eq_refl eq_refl eq_refl eq_refl).
Defined.

(** C6: [days] lists the keys of [grouped] in the order of first
    insertion: each weekday once, ordered by the first position of the input
    at which a valid entry of that weekday occurs; the order is neither
    alphabetical nor that of the calendar. *)
Theorem C6_days_in_first_insertion_order :
  (forall (parse : string -> option datetime) (name : datetime -> string)
          (l : list string),
      r_days (get_slots parse name l)
      = dict_keys (r_grouped_slots (get_slots parse name l))
      /\ r_days (get_slots parse name l) = first_seen (weekdays parse name l)
      /\ NoDup (r_days (get_slots parse name l))
      /\ (forall d, In d (r_days (get_slots parse name l))
                    <-> exists s, In s l /\ on_day parse name d s = true)
      /\ (forall i j di dj,
             i < j ->
             nth_error (r_days (get_slots parse name l)) i = Some di ->
             nth_error (r_days (get_slots parse name l)) j = Some dj ->
             exists a b,
               find_first (on_day parse name di) l = Some a
               /\ find_first (on_day parse name dj) l = Some b
               /\ a < b))
  /\ r_days (get_slots fromisoformat strftime_A
               ["2024-06-11T14:00:00"; "2024-06-10T09:00:00"])
     = ["Tuesday"; "Monday"].
Proof.
  split; [|reflexivity].
  intros parse name l.
  split; [reflexivity|].
  split; [apply get_slots_days|].
  rewrite get_slots_days.
  split; [apply first_seen_NoDup|].
  split.
  - intros d. rewrite first_seen_In. apply on_day_weekdays.
  - intros i j di dj. apply days_order.
Qed.

Lemma C6_witness :
  exists a b,
    find_first (on_day fromisoformat strftime_A "Tuesday")
      ["oops"; "2024-06-11T14:00:00"; "2024-06-10T09:00:00";
       "2024-06-11T08:00:00"] = Some a
    /\ find_first (on_day fromisoformat strftime_A "Monday")
         ["oops"; "2024-06-11T14:00:00"; "2024-06-10T09:00:00";
          "2024-06-11T08:00:00"] = Some b
    /\ a < b.
Proof.
  exact (proj2 (proj2 (proj2 (proj2
           (proj1 C6_days_in_first_insertion_order
              fromisoformat strftime_A
              ["oops"; "2024-06-11T14:00:00"; "2024-06-10T09:00:00";
               "2024-06-11T08:00:00"]))))
           0 1 "Tuesday" "Monday" (Nat.lt_0_succ 0) eq_refl eq_refl).
Defined.

(** C7, as the code has it: an entry is accepted exactly when
    [datetime.fromisoformat] returns a value for it.  The ['T'] and the time
    are not required: the date alone is accepted, as midnight of that day,
    and any one character may stand between the date and the time.  A
    string that [fromisoformat] rejects is dropped. *)
Theorem C7_accepted_iff_fromisoformat_parses :
  (forall (parse : string -> option datetime) (name : datetime -> string)
          (l : list string) (s : string),
      (In s (r_fallback (get_slots parse name l))
       <-> In s l /\ exists dt, parse s = Some dt)
      /\ ((exists d p,
              In s (bucket_of (r_grouped_slots (get_slots parse name l)) d p))
          <-> In s l /\ exists dt, parse s = Some dt))
  /\ fromisoformat "2024-06-10" = Some (mk_datetime 2024 6 10 0 0 0 0 None)
  /\ (forall c : ascii,
         fromisoformat ("2024-06-10" ++ String c "09:00:00")
         = Some (mk_datetime 2024 6 10 9 0 0 0 None))
  /\ fromisoformat "2024-06-10T09:00:00" = Some (mk_datetime 2024 6 10 9 0 0 0 None)
  /\ fromisoformat "not-a-date" = None
  /\ get_slots fromisoformat strftime_A ["not-a-date"]
     = mk_result [] [] ["morning"; "afternoon"] [].
Proof.
  split.
  { intros parse name l s. split.
    - now rewrite get_slots_fallback, filter_In, valid_true.
    - split.
      + intros (d & p & Hb).
        rewrite get_slots_bucket, filter_In, lands_true in Hb.
        destruct Hb as (Hin & dt & Hp & _). eauto.
      + intros (Hin & dt & Hp).
        exists (name dt), (classify_slot dt).
        rewrite get_slots_bucket, filter_In, lands_true. eauto. }
  split; [reflexivity|].
  split; [intros c; reflexivity|].
  repeat split.
Qed.

(** C7 as the spec states it fails: the bare date ["2024-06-10"], with no
    ['T'] and no time, is accepted, and so is a date and a time with a blank
    between them. *)
Lemma C7_counterexample_bare_date_accepted :
  get_slots fromisoformat strftime_A ["2024-06-10"]
  = mk_result
      [("Monday", [("morning", []); ("afternoon", ["2024-06-10"])])]
      ["Monday"] ["morning"; "afternoon"] ["2024-06-10"]
  /\ String.index 0 "T" "2024-06-10" = None
  /\ r_fallback (get_slots fromisoformat strftime_A ["2024-06-10 09:00:00"])
     = ["2024-06-10 09:00:00"]
  /\ String.index 0 "T" "2024-06-10 09:00:00" = None.
Proof. repeat split. Qed.

(** C8: a weekday is a key of [grouped] exactly when a valid entry of that
    weekday occurred.  Its record is created on its first occurrence from the
    two empty buckets, morning and afternoon, and every record keeps these
    two keys.  What an iteration appends to the bucket and to [fallback] is
    the input string itself. *)
Theorem C8_weekday_records :
  forall (parse : string -> option datetime) (name : datetime -> string)
         (l : list string),
    (forall d,
        In d (dict_keys (r_grouped_slots (get_slots parse name l)))
        <-> exists s dt, In s l /\ parse s = Some dt /\ name dt = d)
    /\ (forall d record,
           dict_get (r_grouped_slots (get_slots parse name l)) d = Some record ->
           dict_keys record = ["morning"; "afternoon"])
    /\ (forall s dt,
           parse s = Some dt ->
           dict_in (name dt) (grouped (group_loop parse name l)) = false ->
           group_loop parse name (l ++ [s])
           = mk_locals
               (grouped (group_loop parse name l)
                ++ [(name dt, dict_set [("morning", []); ("afternoon", [])]
                                       (classify_slot dt) [s])])
               (fallback (group_loop parse name l) ++ [s]))
    /\ (forall s dt,
           parse s = Some dt ->
           fallback (group_loop parse name (l ++ [s]))
           = fallback (group_loop parse name l) ++ [s]
           /\ bucket_of (grouped (group_loop parse name (l ++ [s])))
                        (name dt) (classify_slot dt)
              = bucket_of (grouped (group_loop parse name l))
                          (name dt) (classify_slot dt) ++ [s]).
Proof.
  intros parse name l.
  split; [|split; [|split]].
  - intros d.
    change (dict_keys (r_grouped_slots (get_slots parse name l)))
      with (r_days (get_slots parse name l)).
    rewrite get_slots_days, first_seen_In. apply In_weekdays.
  - intros d record Hg.
    destruct (get_slots_well_formed parse name l d record Hg) as (a & b & ->).
    reflexivity.
  - intros s dt Hp Hnew. rewrite group_loop_snoc. unfold loop_body.
    rewrite (try_body_new_day parse name _ s dt Hp); [reflexivity|].
    unfold dict_in in Hnew.
    destruct (dict_get (grouped (group_loop parse name l)) (name dt));
      [discriminate | reflexivity].
  - intros s dt Hp.
    pose proof (invariant_group_loop parse name l) as I1.
    pose proof (invariant_group_loop parse name (l ++ [s])) as I2.
    rewrite (inv_fallback _ _ _ _ I2), (inv_fallback _ _ _ _ I1).
    rewrite (inv_bucket _ _ _ _ I2), (inv_bucket _ _ _ _ I1).
    rewrite !filter_snoc.
    replace (valid parse s) with true by (unfold valid; now rewrite Hp).
    replace (lands parse name (name dt) (classify_slot dt) s) with true
      by (unfold lands; now rewrite Hp, !String.eqb_refl).
    split; reflexivity.
Qed.

Lemma C8_witness :
  group_loop fromisoformat strftime_A
    (["2024-06-10T09:00:00"] ++ ["2024-06-11T14:00:00"])
  = mk_locals
      (grouped (group_loop fromisoformat strftime_A ["2024-06-10T09:00:00"])
       ++ [("Tuesday", dict_set [("morning", []); ("afternoon", [])]
                                "afternoon" ["2024-06-11T14:00:00"])])
      (fallback (group_loop fromisoformat strftime_A ["2024-06-10T09:00:00"])
       ++ ["2024-06-11T14:00:00"]).
Proof.
  exact (proj1 (proj2 (proj2 (C8_weekday_records fromisoformat strftime_A
                                ["2024-06-10T09:00:00"])))
           "2024-06-11T14:00:00" (mk_datetime 2024 6 11 14 0 0 0 None)
           eq_refl eq_refl).
Defined.

(** ** [normalize_us_phone] *)

Lemma re_sub_non_digits_filter (phone : string) :
  list_ascii_of_string (re_sub_non_digits phone)
  = filter is_digit (list_ascii_of_string phone).
Proof.
  induction phone as [|c rest IH]; simpl; [reflexivity|].
  destruct (is_digit c); simpl; now rewrite IH.
Qed.

Lemma re_sub_non_digits_all_digits (phone : string) :
  forallb is_digit (list_ascii_of_string (re_sub_non_digits phone)) = true.
Proof.
  rewrite re_sub_non_digits_filter, forallb_forall.
  intros c Hc. now apply filter_In in Hc.
Qed.

Lemma startswith_one (s : string) :
  startswith s "1" = true <-> exists rest, s = String "1" rest.
Proof.
  unfold startswith. destruct s as [|c rest]; cbn [String.prefix].
  - split; [discriminate | intros [r H]; discriminate].
  - destruct (ascii_dec "1" c) as [<-|Hne].
    + split; [now exists rest | now destruct rest].
    + split; [discriminate | intros [r [= H _]]; congruence].
Qed.

Lemma is_digit_code (c : ascii) :
  is_digit c = ((48 <=? N_of_ascii c) && (N_of_ascii c <=? 57))%N.
Proof.
  unfold is_digit, nat_of_ascii.
  destruct (N.leb_spec 48 (N_of_ascii c)); destruct (N.leb_spec (N_of_ascii c) 57);
    destruct (Nat.leb_spec 48 (N.to_nat (N_of_ascii c)));
    destruct (Nat.leb_spec (N.to_nat (N_of_ascii c)) 57);
    cbn [andb]; try reflexivity; lia.
Qed.

Lemma code_point_one (c : ascii) :
  (N_of_ascii c =? 49)%N = true <-> "1"%char = c.
Proof.
  rewrite N.eqb_eq. split.
  - intros H. rewrite <- (ascii_N_embedding c), H. reflexivity.
  - intros <-. reflexivity.
Qed.

(** The digits of a [string] are the decimal digits of its code points,
    for a table that has ['0']-['9'] and nothing else below 256. *)
Lemma of_string_re_sub_non_digits (is_decimal : N -> bool) (s : string) :
  (forall n, (n < 256)%N -> is_decimal n = ((48 <=? n) && (n <=? 57))%N) ->
  Unicode.of_string (re_sub_non_digits s)
  = filter is_decimal (Unicode.of_string s).
Proof.
  intros H. induction s as [|c s IH]; [reflexivity|].
  cbn [re_sub_non_digits]. unfold Unicode.of_string in *.
  cbn [list_ascii_of_string map filter].
  rewrite (H _ (N_ascii_bounded c)), <- is_digit_code.
  destruct (is_digit c); cbn [list_ascii_of_string map]; now rewrite IH.
Qed.

Lemma of_string_startswith_one (s : string) :
  startswith s "1"
  = Unicode.startswith (Unicode.of_string s) (Unicode.of_string "1").
Proof.
  unfold startswith. destruct s as [|c s]; [reflexivity|].
  cbn [String.prefix]. unfold Unicode.of_string.
  cbn [list_ascii_of_string map Unicode.startswith].
  change (N_of_ascii "1") with 49%N. rewrite andb_true_r.
  destruct (ascii_dec "1" c) as [E|E].
  - rewrite (proj2 (code_point_one c) E). now destruct s.
  - destruct (N.eqb (N_of_ascii c) 49) eqn:E1; [|reflexivity].
    exfalso. apply E. now apply code_point_one.
Qed.

(** The two cases of [normalize_us_phone], by the first digit. *)
Lemma unicode_normalize_cases (is_decimal : N -> bool) (phone : Unicode.str) :
  ((exists rest, filter is_decimal phone = 49%N :: rest) ->
   Unicode.normalize_us_phone is_decimal phone
   = 43%N :: filter is_decimal phone)
  /\ ((forall rest, filter is_decimal phone <> 49%N :: rest) ->
      Unicode.normalize_us_phone is_decimal phone
      = 43%N :: 49%N :: filter is_decimal phone).
Proof.
  unfold Unicode.normalize_us_phone, Unicode.re_sub_non_digits.
  change (Unicode.of_string "1") with [49%N].
  change (Unicode.of_string "+") with [43%N].
  destruct (filter is_decimal phone) as [|c rest] eqn:E.
  - split; [intros [r H]; discriminate | reflexivity].
  - cbn [Unicode.startswith]. rewrite andb_true_r.
    destruct (N.eqb_spec c 49) as [->|Hne]; cbn [negb app].
    + split; [reflexivity | intros H; exfalso; now apply (H rest)].
    + split; [intros [r [= H _]]; contradiction | reflexivity].
Qed.

(** C10, for every [str]: the result is ['+'] followed by the decimal
    digits of the input in their order, kept as they are when the first of
    them is ['1'] and with a ['1'] put in front of them otherwise.  It
    always begins with ["+1"], an input without a digit gives ["+1"], and
    what follows the ['+'] are decimal digits only.  On a [string], whose
    code points are below 256, this is [normalize_us_phone]. *)
Theorem C10_normalize_us_phone_any_str :
  forall (is_decimal : N -> bool) (phone : Unicode.str),
    (exists rest,
        Unicode.normalize_us_phone is_decimal phone
        = Unicode.of_string "+1" ++ rest)
    /\ (forall rest,
           filter is_decimal phone = Unicode.of_string "1" ++ rest ->
           Unicode.normalize_us_phone is_decimal phone
           = Unicode.of_string "+" ++ filter is_decimal phone)
    /\ ((forall rest, filter is_decimal phone <> Unicode.of_string "1" ++ rest) ->
        Unicode.normalize_us_phone is_decimal phone
        = Unicode.of_string "+1" ++ filter is_decimal phone)
    /\ ((forall c, In c phone -> is_decimal c = false) ->
        Unicode.normalize_us_phone is_decimal phone = Unicode.of_string "+1")
    /\ (is_decimal 49%N = true ->
        forallb is_decimal (tl (Unicode.normalize_us_phone is_decimal phone))
        = true)
    /\ (forall s : string,
           (forall n, (n < 256)%N ->
                      is_decimal n = ((48 <=? n) && (n <=? 57))%N) ->
           Unicode.of_string (normalize_us_phone s)
           = Unicode.normalize_us_phone is_decimal (Unicode.of_string s)).
Proof.
  intros is_decimal phone.
  change (Unicode.of_string "1") with [49%N].
  change (Unicode.of_string "+") with [43%N].
  change (Unicode.of_string "+1") with [43%N; 49%N].
  destruct (unicode_normalize_cases is_decimal phone) as [Hkept Hput].
  assert (Hdigits : forallb is_decimal (filter is_decimal phone) = true).
  { apply forallb_forall. intros c Hc. now apply filter_In in Hc. }
  assert (Hcase : (exists rest, filter is_decimal phone = 49%N :: rest)
                  \/ (forall rest, filter is_decimal phone <> 49%N :: rest)).
  { destruct (filter is_decimal phone) as [|c rest].
    - right. intros r H. discriminate.
    - destruct (N.eq_dec c 49) as [->|Hne].
      + left. now exists rest.
      + right. intros r [= H _]. contradiction. }
  split; [|split; [|split; [|split; [|split]]]].
  - destruct Hcase as [[rest H]|H].
    + exists rest. rewrite (Hkept (ex_intro _ rest H)), H. reflexivity.
    + exists (filter is_decimal phone). now rewrite (Hput H).
  - intros rest H. apply Hkept. now exists rest.
  - intros H. now apply Hput.
  - intros Hnone.
    assert (E : filter is_decimal phone = []).
    { clear -Hnone. induction phone as [|c l IH]; [reflexivity|].
      cbn [filter]. rewrite (Hnone c (or_introl eq_refl)).
      apply IH. intros x Hx. apply Hnone. now right. }
    rewrite Hput; rewrite E; [reflexivity | intros r H; discriminate].
  - intros Hone. destruct Hcase as [H|H].
    + rewrite (Hkept H). exact Hdigits.
    + rewrite (Hput H). cbn [tl forallb]. now rewrite Hone.
  - intros s Hlatin. unfold normalize_us_phone, Unicode.normalize_us_phone.
    unfold Unicode.re_sub_non_digits.
    rewrite <- (of_string_re_sub_non_digits is_decimal s Hlatin).
    rewrite <- of_string_startswith_one.
    destruct (startswith (re_sub_non_digits s) "1"); reflexivity.
Qed.

Lemma C10_witness :
  Unicode.normalize_us_phone
    (fun n => ((48 <=? n) && (n <=? 57) || (1632 <=? n) && (n <=? 1641))%N)
    [40; 1636; 1633; 53; 41; 32; 50]%N
  = Unicode.of_string "+1" ++ [1636; 1633; 53; 50]%N
  /\ Unicode.of_string (normalize_us_phone "1 (415) 555-2671")
     = Unicode.normalize_us_phone
         (fun n => ((48 <=? n) && (n <=? 57) || (1632 <=? n) && (n <=? 1641))%N)
         (Unicode.of_string "1 (415) 555-2671").
Proof.
  split.
  - apply (proj1 (proj2 (proj2 (C10_normalize_us_phone_any_str
             (fun n => ((48 <=? n) && (n <=? 57) || (1632 <=? n) && (n <=? 1641))%N)
             [40; 1636; 1633; 53; 41; 32; 50]%N)))).
    intros rest. discriminate.
  - apply (proj2 (proj2 (proj2 (proj2 (proj2 (C10_normalize_us_phone_any_str
             (fun n => ((48 <=? n) && (n <=? 57) || (1632 <=? n) && (n <=? 1641))%N)
             []))))) "1 (415) 555-2671").
    intros n Hn.
    destruct (N.leb_spec 1632 n); [lia|]. cbn [andb]. now rewrite orb_false_r.
Defined.

(** ** More on the grouping loop *)

Lemma existsb_first_seen (x : string) (l : list string) :
  existsb (String.eqb x) (first_seen l) = existsb (String.eqb x) l.
Proof.
  apply eq_true_iff_eq. rewrite !existsb_eqb_In. apply first_seen_In.
Qed.

(** The first-seen order of a concatenation: the order of the first part,
    then what the second part adds. *)
Lemma first_seen_app (a b : list string) :
  first_seen (a ++ b)
  = first_seen a
    ++ filter (fun x => negb (existsb (String.eqb x) (first_seen a)))
              (first_seen b).
Proof.
  induction b as [|x b IH] using rev_ind.
  - now rewrite app_nil_r, app_nil_r.
  - rewrite app_assoc, !first_seen_snoc, IH.
    rewrite <- IH, !existsb_first_seen, existsb_app.
    destruct (existsb (String.eqb x) b) eqn:Eb.
    + rewrite orb_true_r. exact IH.
    + rewrite orb_false_r, filter_snoc, existsb_first_seen, IH.
      destruct (existsb (String.eqb x) a); cbn [negb].
      * now rewrite app_nil_r.
      * now rewrite app_assoc.
Qed.

Lemma first_seen_length (l : list string) :
  List.length (first_seen l) <= List.length l.
Proof.
  induction l as [|x l IH] using rev_ind; [apply Nat.le_refl|].
  rewrite first_seen_snoc, length_app. simpl.
  destruct (existsb (String.eqb x) (first_seen l)); [|rewrite length_app; simpl];
    lia.
Qed.

Lemma count_occ_filter (f : string -> bool) (l : list string) (x : string) :
  count_occ string_dec (filter f l) x
  = if f x then count_occ string_dec l x else 0.
Proof.
  induction l as [|y l IH]; simpl; [now destruct (f x)|].
  destruct (string_dec y x) as [->|Hne].
  - destruct (f x) eqn:Efx; simpl.
    + destruct (string_dec x x); [|contradiction]. now rewrite IH.
    + exact IH.
  - destruct (f y); simpl; [|exact IH].
    destruct (string_dec y x); [contradiction | exact IH].
Qed.

Lemma weekdays_length (parse : string -> option datetime)
      (name : datetime -> string) (l : list string) :
  List.length (weekdays parse name l) = List.length (filter (valid parse) l).
Proof.
  induction l as [|s l IH]; [reflexivity|].
  simpl. unfold valid at 1. destruct (parse s); simpl; now rewrite IH.
Qed.

(** X1: grouping a concatenation.  [fallback] and every bucket of
    [l1 ++ l2] are those of [l1] followed by those of [l2]; [days] is the
    days of [l1] followed by the days of [l2] that [l1] does not have. *)
Theorem X1_get_slots_of_concatenation :
  forall (parse : string -> option datetime) (name : datetime -> string)
         (l1 l2 : list string),
    r_fallback (get_slots parse name (l1 ++ l2))
    = r_fallback (get_slots parse name l1) ++ r_fallback (get_slots parse name l2)
    /\ (forall d p,
           bucket_of (r_grouped_slots (get_slots parse name (l1 ++ l2))) d p
           = bucket_of (r_grouped_slots (get_slots parse name l1)) d p
             ++ bucket_of (r_grouped_slots (get_slots parse name l2)) d p)
    /\ r_days (get_slots parse name (l1 ++ l2))
       = r_days (get_slots parse name l1)
         ++ filter (fun d =>
                      negb (existsb (String.eqb d)
                                    (r_days (get_slots parse name l1))))
                   (r_days (get_slots parse name l2)).
Proof.
  intros parse name l1 l2. split; [|split].
  - now rewrite !get_slots_fallback, filter_app.
  - intros d p. now rewrite !get_slots_bucket, filter_app.
  - rewrite !get_slots_days. unfold weekdays at 1.
    rewrite flat_map_app. apply first_seen_app.
Qed.

(** X2: duplicates are kept.  A string that parses occurs in [fallback],
    and in its bucket, as many times as in the input; a string that does
    not parse occurs in neither. *)
Theorem X2_duplicates_are_kept :
  forall (parse : string -> option datetime) (name : datetime -> string)
         (l : list string) (s : string),
    count_occ string_dec (r_fallback (get_slots parse name l)) s
    = (if valid parse s then count_occ string_dec l s else 0)
    /\ (forall d p,
           count_occ string_dec
             (bucket_of (r_grouped_slots (get_slots parse name l)) d p) s
           = if lands parse name d p s then count_occ string_dec l s else 0).
Proof.
  intros parse name l s. split.
  - rewrite get_slots_fallback. apply count_occ_filter.
  - intros d p. rewrite get_slots_bucket. apply count_occ_filter.
Qed.

(** X3: the buckets are disjoint and no weekday is listed without an
    entry.  A string is in at most one bucket; every day of [days] has an
    entry in its morning or its afternoon bucket; and there are no more
    days than entries in [fallback], and no more of these than inputs. *)
Theorem X3_buckets_are_disjoint_and_days_inhabited :
  forall (parse : string -> option datetime) (name : datetime -> string)
         (l : list string),
    (forall s d p d' p',
        In s (bucket_of (r_grouped_slots (get_slots parse name l)) d p) ->
        In s (bucket_of (r_grouped_slots (get_slots parse name l)) d' p') ->
        d = d' /\ p = p')
    /\ (forall d,
           In d (r_days (get_slots parse name l)) ->
           exists s p,
             In p (r_periods (get_slots parse name l))
             /\ In s (bucket_of (r_grouped_slots (get_slots parse name l)) d p))
    /\ List.length (r_days (get_slots parse name l))
       <= List.length (r_fallback (get_slots parse name l))
    /\ List.length (r_fallback (get_slots parse name l)) <= List.length l.
Proof.
  intros parse name l. split; [|split; [|split]].
  - intros s d p d' p'.
    rewrite !get_slots_bucket, !filter_In, !lands_true.
    intros (_ & dt & Hp & <- & <-) (_ & dt' & Hp' & <- & <-).
    rewrite Hp in Hp'. injection Hp' as <-. auto.
  - intros d. rewrite get_slots_days, first_seen_In, In_weekdays.
    intros (s & dt & Hin & Hp & <-).
    exists s, (classify_slot dt). split.
    + destruct (classify_slot_cases dt) as [E|E]; rewrite E; simpl; auto.
    + rewrite get_slots_bucket, filter_In, lands_true. eauto.
  - rewrite get_slots_days, get_slots_fallback, <- (weekdays_length parse name).
    apply first_seen_length.
  - rewrite get_slots_fallback. apply filter_length_le.
Qed.

Lemma X3_witness :
  "Monday" = "Monday" /\ "morning" = "morning".
Proof.
  apply (proj1 (X3_buckets_are_disjoint_and_days_inhabited
                  fromisoformat strftime_A
                  ["2024-06-10T09:00:00"; "2024-06-11T15:00:00"])
           "2024-06-10T09:00:00" "Monday" "morning" "Monday" "morning");
    simpl; auto.
Defined.

(** ** More on [normalize_us_phone] *)

Lemma re_sub_non_digits_fixed (s : string) :
  forallb is_digit (list_ascii_of_string s) = true ->
  re_sub_non_digits s = s.
Proof.
  induction s as [|c s IH]; simpl; [reflexivity|].
  intros H. apply andb_true_iff in H. destruct H as [Hc Hs].
  rewrite Hc. now rewrite IH.
Qed.

(** The result is ['+'], ['1'] and digits. *)
Lemma normalize_us_phone_shape (phone : string) :
  exists rest,
    normalize_us_phone phone = String "+" (String "1" rest)
    /\ forallb is_digit (list_ascii_of_string rest) = true.
Proof.
  pose proof (re_sub_non_digits_all_digits phone) as Hall.
  unfold normalize_us_phone.
  destruct (startswith (re_sub_non_digits phone) "1") eqn:E; cbn [negb].
  - destruct (proj1 (startswith_one _) E) as [rest Hrest].
    exists rest. rewrite Hrest in *. split; [reflexivity|].
    cbn [list_ascii_of_string forallb] in Hall.
    now apply andb_true_iff in Hall.
  - now exists (re_sub_non_digits phone).
Qed.

(** X4: normalising is idempotent: a normalised number is left as it is.
    The result is ['+'] followed by its own digits. *)
Theorem X4_normalize_us_phone_idempotent :
  forall phone : string,
    normalize_us_phone (normalize_us_phone phone) = normalize_us_phone phone
    /\ normalize_us_phone phone
       = String "+" (re_sub_non_digits (normalize_us_phone phone)).
Proof.
  intros phone.
  destruct (normalize_us_phone_shape phone) as (rest & -> & Hrest).
  assert (Hd : re_sub_non_digits (String "+" (String "1" rest)) = String "1" rest).
  { cbn [re_sub_non_digits].
    change (is_digit "+") with false. change (is_digit "1") with true.
    cbv iota. now rewrite (re_sub_non_digits_fixed rest Hrest). }
  split; [|now rewrite Hd].
  unfold normalize_us_phone. rewrite Hd.
  replace (startswith (String "1" rest) "1") with true; [reflexivity|].
  symmetry. apply startswith_one. now exists rest.
Qed.

(** ** The routes *)

(** X5: the unit of a timestamp.  From [10^8] on (3 March 1973 in seconds)
    the result is at least [10^11] and a second pass leaves it unchanged: a
    value below [10^11] is read as seconds and multiplied by 1000, a value
    from [10^11] on is kept. *)
Theorem X5_to_millis_on_plausible_timestamps :
  forall ts : Z,
    (100000000 <= ts)%Z ->
    (100000000000 <= to_millis ts)%Z
    /\ to_millis (to_millis ts) = to_millis ts
    /\ ((ts < 100000000000)%Z -> to_millis ts = (ts * 1000)%Z)
    /\ ((100000000000 <= ts)%Z -> to_millis ts = ts).
Proof.
  intros ts Hts. unfold to_millis.
  destruct (Z.ltb_spec ts 100000000000) as [Hlt|Hge].
  - destruct (Z.ltb_spec (ts * 1000) 100000000000); lia.
  - destruct (Z.ltb_spec ts 100000000000); lia.
Qed.

Lemma X5_witness :
  (100000000000 <= to_millis 1718000000)%Z
  /\ to_millis (to_millis 1718000000) = to_millis 1718000000
  /\ ((1718000000 < 100000000000)%Z -> to_millis 1718000000 = (1718000000 * 1000)%Z)
  /\ ((100000000000 <= 1718000000)%Z -> to_millis 1718000000 = 1718000000%Z).
Proof. apply (X5_to_millis_on_plausible_timestamps 1718000000). lia. Defined.

Section SlotsRoute.

Variable int_of_str : string -> option Z.
Variable py_str : json -> string.
Variable fromisoformat : string -> option datetime.
Variable strftime_A : datetime -> string.
Variable cfg : config.
Variable ghl_slots : json -> http_reply.

(** A request that decodes is not one that [or {}] replaces. *)
Lemma decode_request_truthy (req : json) (r : Z * Z * json) :
  decode_request int_of_str req = Ok r -> py_bool req = true.
Proof.
  destruct req as [| | | | |l|d]; try discriminate.
  destruct d; [discriminate | reflexivity].
Qed.

(** With no ["message"] the defaults lead to [int(None)]. *)
Lemma decode_request_no_message (d : dict json) :
  dict_get d "message" = None ->
  decode_request int_of_str (JDict d) = Raise TypeError.
Proof.
  intros H. unfold decode_request, py_get. cbn [bind]. now rewrite H.
Qed.

(** With the expected objects in place, decoding turns on the two dates
    alone. *)
Lemma decode_request_shape (d m t f a : dict json) (more : list json) :
  dict_get d "message" = Some (JDict m) ->
  dict_get m "toolCalls" = Some (JList (JDict t :: more)) ->
  dict_get t "function" = Some (JDict f) ->
  dict_get f "arguments" = Some (JDict a) ->
  decode_request int_of_str (JDict d)
  = (start_ts <- (start_date <- py_get (JDict a) "startDate" JNull ;;
                  py_int int_of_str start_date) ;;
     end_ts <- (end_date <- py_get (JDict a) "endDate" JNull ;;
                py_int int_of_str end_date) ;;
     tool_call_id <- py_get (JDict t) "id" (JStr "unknown") ;;
     Ok (start_ts, end_ts, tool_call_id)).
Proof.
  intros Hd Hm Ht Hf. unfold decode_request, py_get. cbn [bind].
  rewrite Hd. cbn [bind]. rewrite Hm. cbn [bind py_getitem_0].
  rewrite Ht. cbn [bind]. rewrite Hf. cbn [bind].
  destruct (py_int int_of_str
              match dict_get a "startDate" with Some x => x | None => JNull end);
    reflexivity.
Qed.

(** The route is its program run against the calendar service. *)
Lemma get_slots_route_run (req : json) :
  get_slots_route int_of_str py_str fromisoformat strftime_A cfg ghl_slots req
  = run ghl_slots
        (get_slots_program int_of_str py_str fromisoformat strftime_A cfg req).
Proof.
  unfold get_slots_route, get_slots_program.
  destruct (decode_request int_of_str _) as [[[s e] id]|ex]; cbn [run];
    [|reflexivity].
  destruct (ghl_slots _); reflexivity.
Qed.

(** X6: a request without usable dates is answered without a call to the
    calendar service: the program of the route is the answer itself, the
    fixed error body with status 200 and the tool call id "unknown",
    whatever id the request carries.  This holds of an empty or null
    payload, of a payload without ["message"], and of a tool call whose
    arguments lack [startDate], or lack [endDate] beside an integer
    [startDate].  The route is this program run against the service. *)
Theorem X6_missing_dates_are_reported :
  (forall req,
      py_bool req = false ->
      get_slots_program int_of_str py_str fromisoformat strftime_A cfg req
      = Answer (Respond 200 invalid_dates_body))
  /\ (forall d,
         dict_get d "message" = None ->
         get_slots_program int_of_str py_str fromisoformat strftime_A cfg
                           (JDict d)
         = Answer (Respond 200 invalid_dates_body))
  /\ (forall d m t f a more,
         dict_get d "message" = Some (JDict m) ->
         dict_get m "toolCalls" = Some (JList (JDict t :: more)) ->
         dict_get t "function" = Some (JDict f) ->
         dict_get f "arguments" = Some (JDict a) ->
         dict_get a "startDate" = None
         \/ ((exists n, dict_get a "startDate" = Some (JInt n))
             /\ dict_get a "endDate" = None) ->
         get_slots_program int_of_str py_str fromisoformat strftime_A cfg
                           (JDict d)
         = Answer (Respond 200 invalid_dates_body))
  /\ (forall req,
         get_slots_route int_of_str py_str fromisoformat strftime_A cfg
                         ghl_slots req
         = run ghl_slots
               (get_slots_program int_of_str py_str fromisoformat strftime_A
                                  cfg req)).
Proof.
  split; [|split; [|split]].
  - intros req H. unfold get_slots_program. now rewrite H.
  - intros d H. unfold get_slots_program.
    destruct (py_bool (JDict d)).
    + now rewrite (decode_request_no_message d H).
    + reflexivity.
  - intros d m t f a more Hd Hm Ht Hf Hdates. unfold get_slots_program.
    replace (py_bool (JDict d)) with true
      by (destruct d; [discriminate | reflexivity]).
    rewrite (decode_request_shape d m t f a more Hd Hm Ht Hf).
    unfold py_get. cbn [bind].
    destruct Hdates as [Hs | [[n Hs] He]]; rewrite Hs; cbn [bind py_int].
    + reflexivity.
    + rewrite He. reflexivity.
  - exact get_slots_route_run.
Qed.

(** X7: a payload whose ["message"] is present and not an object, or whose
    ["toolCalls"] is an object, is not answered: the [AttributeError] of
    [.get], or the [KeyError] of [[0]], is not among the exceptions the
    route catches. *)
Theorem X7_malformed_message_crashes :
  (forall d v,
      dict_get d "message" = Some v ->
      (forall m, v <> JDict m) ->
      get_slots_route int_of_str py_str fromisoformat strftime_A cfg ghl_slots
                      (JDict d)
      = Crash AttributeError)
  /\ (forall d m calls,
         dict_get d "message" = Some (JDict m) ->
         dict_get m "toolCalls" = Some (JDict calls) ->
         get_slots_route int_of_str py_str fromisoformat strftime_A cfg ghl_slots
                         (JDict d)
         = Crash KeyError).
Proof.
  split.
  - intros d v Hd Hv. unfold get_slots_route.
    replace (py_bool (JDict d)) with true
      by (destruct d; [discriminate | reflexivity]).
    unfold decode_request, py_get. cbn [bind]. rewrite Hd. cbn [bind].
    destruct v; try reflexivity. exfalso. now apply (Hv d0).
  - intros d m calls Hd Hm. unfold get_slots_route.
    replace (py_bool (JDict d)) with true
      by (destruct d; [discriminate | reflexivity]).
    unfold decode_request, py_get. cbn [bind]. rewrite Hd. cbn [bind].
    rewrite Hm. reflexivity.
Qed.

(** X8: whenever the route [/slots] answers, the status is 200: invalid
    dates, a failed call and an error of the calendar service are all
    reported in the body of a 200 answer. *)
Theorem X8_slots_route_answers_200 :
  forall (req : json) (status : Z) (body : json),
    get_slots_route int_of_str py_str fromisoformat strftime_A cfg ghl_slots req
    = Respond status body ->
    status = 200%Z.
Proof.
  intros req status body. unfold get_slots_route.
  destruct (decode_request int_of_str _) as [[[s e] id]|ex].
  - destruct (ghl_slots _) as [details|code slot_data].
    + now intros [= <- _].
    + destruct (negb (code =? 200)%Z); [now intros [= <- _]|].
      destruct (collect_slots slot_data); [now intros [= <- _] | discriminate].
  - destruct (caught ex); [now intros [= <- _] | discriminate].
Qed.

End SlotsRoute.

(** ** Gathering the slots of the reply *)

Lemma extend_slots_ok (items : list (string * json)) (acc : list json) :
  forallb day_ok (map snd items) = true ->
  extend_slots items acc
  = Ok (acc ++ flat_map (fun kv => day_slots (snd kv)) items).
Proof.
  revert acc. induction items as [|[k val] items IH]; intros acc H.
  - simpl. now rewrite app_nil_r.
  - cbn [map snd forallb] in H. apply andb_true_iff in H. destruct H as [Hv Hi].
    cbn [extend_slots flat_map snd].
    destruct val as [| | | | | |v]; try discriminate.
    unfold py_get, day_ok, day_slots in *. cbn [bind].
    destruct (dict_get v "slots") as [[| | | | |l|]|]; try discriminate;
      cbn [py_iter bind]; rewrite (IH _ Hi); now rewrite <- app_assoc.
Qed.

Lemma extend_slots_not_object (items1 items2 : list (string * json))
      (k : string) (v : json) (acc : list json) :
  forallb day_ok (map snd items1) = true ->
  (forall m, v <> JDict m) ->
  extend_slots (items1 ++ (k, v) :: items2) acc = Raise AttributeError.
Proof.
  revert acc. induction items1 as [|[k1 val] items1 IH]; intros acc H Hv.
  - cbn [app extend_slots].
    destruct v; try reflexivity. exfalso. now apply (Hv d).
  - cbn [map snd forallb] in H. apply andb_true_iff in H. destruct H as [Hval Hi].
    cbn [app extend_slots].
    destruct val as [| | | | | |d]; try discriminate.
    unfold py_get, day_ok in *. cbn [bind].
    destruct (dict_get d "slots") as [[| | | | |l|]|]; try discriminate;
      cbn [py_iter bind]; now apply IH.
Qed.

Lemma extend_slots_not_iterable (items1 items2 : list (string * json))
      (k : string) (m : dict json) (slots : json) (acc : list json) :
  forallb day_ok (map snd items1) = true ->
  dict_get m "slots" = Some slots ->
  slots = JNull
  \/ (exists b, slots = JBool b)
  \/ (exists n, slots = JInt n)
  \/ (exists x, slots = JFloat x) ->
  extend_slots (items1 ++ (k, JDict m) :: items2) acc = Raise TypeError.
Proof.
  revert acc. induction items1 as [|[k1 val] items1 IH]; intros acc H Hs Hkind.
  - cbn [app extend_slots]. unfold py_get. cbn [bind]. rewrite Hs.
    destruct Hkind as [-> | [[b ->] | [[n ->] | [x ->]]]]; reflexivity.
  - cbn [map snd forallb] in H. apply andb_true_iff in H. destruct H as [Hval Hi].
    cbn [app extend_slots].
    destruct val as [| | | | | |d]; try discriminate.
    unfold py_get, day_ok in *. cbn [bind].
    destruct (dict_get d "slots") as [[| | | | |l|]|]; try discriminate;
      cbn [py_iter bind]; now apply IH.
Qed.

(** The loop on any values is the loop on the strings among them. *)
Lemma fold_loop_body_json (parse : string -> option datetime)
      (name : datetime -> string) (vs : list json) (st : locals) :
  fold_left (loop_body_json parse name) vs st
  = fold_left (loop_body parse name) (strings_of vs) st.
Proof.
  revert st. induction vs as [|v vs IH]; intros st; [reflexivity|].
  destruct v; cbn [fold_left loop_body_json strings_of]; apply IH.
Qed.

(** X9: the slots of the reply are gathered in the order of its dates.
    When every value of [slot_data] is an object whose ["slots"], if any,
    is a list, [all_slots] is the concatenation of these lists in the order
    of the keys; a date without ["slots"] adds nothing. *)
Theorem X9_collect_slots_concatenates :
  forall d : dict json,
    forallb day_ok (map snd d) = true ->
    collect_slots (JDict d) = Ok (flat_map (fun kv => day_slots (snd kv)) d).
Proof.
  intros d H. unfold collect_slots, py_items. cbn [bind].
  now rewrite (extend_slots_ok d [] H).
Qed.

Lemma X9_witness :
  collect_slots
    (JDict [("2024-06-10", JDict [("slots", JList [JStr "a"; JStr "b"])]);
            ("2024-06-11", JDict []);
            ("2024-06-12", JDict [("slots", JList [JStr "c"])])])
  = Ok [JStr "a"; JStr "b"; JStr "c"].
Proof.
  apply (X9_collect_slots_concatenates
           [("2024-06-10", JDict [("slots", JList [JStr "a"; JStr "b"])]);
            ("2024-06-11", JDict []);
            ("2024-06-12", JDict [("slots", JList [JStr "c"])])]).
  reflexivity.
Defined.

(** X10: values of the loop that are not strings are skipped like strings
    that do not parse: the result on any list of JSON values is the result
    on the strings among them. *)
Theorem X10_non_strings_are_skipped :
  forall (parse : string -> option datetime) (name : datetime -> string)
         (all_slots : list json),
    get_slots_json parse name all_slots
    = get_slots parse name (strings_of all_slots).
Proof.
  intros parse name all_slots. unfold get_slots_json, get_slots, group_loop.
  now rewrite fold_loop_body_json.
Qed.

Section SlotsRouteReply.

Variable int_of_str : string -> option Z.
Variable py_str : json -> string.
Variable fromisoformat : string -> option datetime.
Variable strftime_A : datetime -> string.
Variable cfg : config.
Variable ghl_slots : json -> http_reply.

(** X11: the whole route on a good request and a good reply.  When the
    request decodes to [start_ts], [end_ts] and an id, the calendar service
    is asked for [to_millis start_ts] to [to_millis end_ts], and a reply of
    status 200 whose values are objects is answered with the grouping of
    the strings among its slots, in the order of the reply, under that id. *)
Theorem X11_slots_route_groups_the_reply :
  forall (req : json) (start_ts end_ts : Z) (tool_call_id : json)
         (d : dict json),
    decode_request int_of_str req = Ok (start_ts, end_ts, tool_call_id) ->
    ghl_slots (slots_params cfg (to_millis start_ts) (to_millis end_ts))
    = Reply 200 (JDict d) ->
    forallb day_ok (map snd d) = true ->
    get_slots_route int_of_str py_str fromisoformat strftime_A cfg ghl_slots req
    = Respond 200
        (slots_body tool_call_id
           (get_slots fromisoformat strftime_A
              (strings_of (flat_map (fun kv => day_slots (snd kv)) d)))).
Proof.
  intros req start_ts end_ts tool_call_id d Hdec Hreply Hok.
  unfold get_slots_route.
  rewrite (decode_request_truthy int_of_str req _ Hdec), Hdec, Hreply.
  cbn [Z.eqb Pos.eqb negb].
  unfold collect_slots, py_items. cbn [bind].
  rewrite (extend_slots_ok d [] Hok). cbn [app].
  unfold get_slots_json, get_slots, group_loop.
  now rewrite fold_loop_body_json.
Qed.

(** X12: a reply of status 200 that is not of the expected form is not
    answered.  When [slot_data] is not an object the [AttributeError] of
    [.items()] leaves the route.  Otherwise the first value that is not
    well formed decides: with the values before it well formed, a value
    that is not an object raises [AttributeError], and an object whose
    ["slots"] is null, a boolean or a number raises the [TypeError] of
    [extend]. *)
Theorem X12_malformed_reply_crashes :
  forall (req : json) (start_ts end_ts : Z) (tool_call_id : json),
    decode_request int_of_str req = Ok (start_ts, end_ts, tool_call_id) ->
    (forall slot_data,
        ghl_slots (slots_params cfg (to_millis start_ts) (to_millis end_ts))
        = Reply 200 slot_data ->
        (forall d, slot_data <> JDict d) ->
        get_slots_route int_of_str py_str fromisoformat strftime_A cfg ghl_slots req
        = Crash AttributeError)
    /\ (forall d1 d2 k v,
           ghl_slots (slots_params cfg (to_millis start_ts) (to_millis end_ts))
           = Reply 200 (JDict (d1 ++ (k, v) :: d2)) ->
           forallb day_ok (map snd d1) = true ->
           (forall m, v <> JDict m) ->
           get_slots_route int_of_str py_str fromisoformat strftime_A cfg ghl_slots req
           = Crash AttributeError)
    /\ (forall d1 d2 k m slots,
           ghl_slots (slots_params cfg (to_millis start_ts) (to_millis end_ts))
           = Reply 200 (JDict (d1 ++ (k, JDict m) :: d2)) ->
           forallb day_ok (map snd d1) = true ->
           dict_get m "slots" = Some slots ->
           slots = JNull
           \/ (exists b, slots = JBool b)
           \/ (exists n, slots = JInt n)
           \/ (exists x, slots = JFloat x) ->
           get_slots_route int_of_str py_str fromisoformat strftime_A cfg ghl_slots req
           = Crash TypeError).
Proof.
  intros req start_ts end_ts tool_call_id Hdec. split; [|split].
  - intros slot_data Hreply Hnot. unfold get_slots_route.
    rewrite (decode_request_truthy int_of_str req _ Hdec), Hdec, Hreply.
    cbn [Z.eqb Pos.eqb negb].
    destruct slot_data; try reflexivity. exfalso. now apply (Hnot d).
  - intros d1 d2 k v Hreply Hok Hv. unfold get_slots_route.
    rewrite (decode_request_truthy int_of_str req _ Hdec), Hdec, Hreply.
    cbn [Z.eqb Pos.eqb negb].
    unfold collect_slots, py_items. cbn [bind].
    now rewrite (extend_slots_not_object d1 d2 k v [] Hok Hv).
  - intros d1 d2 k m slots Hreply Hok Hslots Hkind. unfold get_slots_route.
    rewrite (decode_request_truthy int_of_str req _ Hdec), Hdec, Hreply.
    cbn [Z.eqb Pos.eqb negb].
    unfold collect_slots, py_items. cbn [bind].
    now rewrite (extend_slots_not_iterable d1 d2 k m slots [] Hok Hslots Hkind).
Qed.

End SlotsRouteReply.

(** ** The routes [/book] and [/webhook/lead] *)

Lemma dict_in_get {V : Type} (d : dict V) (k : string) (v : V) :
  dict_get d k = Some v -> dict_in k d = true.
Proof. unfold dict_in. now intros ->. Qed.

Lemma dict_in_false {V : Type} (d : dict V) (k : string) :
  dict_in k d = false -> dict_get d k = None.
Proof. unfold dict_in. now destruct (dict_get d k). Qed.

Section BookRoute.

Variable cfg : config.
Variable ghl_book : json -> http_reply.

(** The route is its program run against the calendar service. *)
Lemma book_appointment_run (payload : json) :
  book_appointment cfg ghl_book payload = run ghl_book (book_program cfg payload).
Proof.
  unfold book_appointment, book_program.
  destruct (booking_data cfg payload) as [[booking|]|e]; reflexivity.
Qed.

(** X13: a booking without ["phone"] or without ["startTime"] is refused
    without a call to the calendar service: the program of the route is the
    answer itself, with status 400.  The route is this program run against
    the service. *)
Theorem X13_book_refuses_missing_fields :
  (forall d : dict json,
      dict_in "phone" d = false \/ dict_in "startTime" d = false ->
      book_program cfg (JDict d)
      = Answer
          (Respond 400
             (JDict [("error",
                      JStr "Missing required fields: 'phone' and/or 'startTime'")])))
  /\ (forall payload,
         book_appointment cfg ghl_book payload
         = run ghl_book (book_program cfg payload)).
Proof.
  split; [|exact book_appointment_run].
  intros d H. unfold book_program, booking_data, py_contains. cbn [bind].
  destruct (dict_in "phone" d); cbn [negb bind].
  - destruct H as [H|H]; [discriminate|]. now rewrite H.
  - reflexivity.
Qed.

(** X14: what is sent to the calendar service.  For a payload with a
    string ["phone"] and a ["startTime"], the object sent has the normalised
    phone, the start time as given, the configured calendar and time zone,
    the ["email"] and ["name"] of the payload exactly when it has them, and
    no other key of the payload. *)
Theorem X14_booking_data_fields :
  forall (d : dict json) (phone : string) (start_time : json),
    dict_get d "phone" = Some (JStr phone) ->
    dict_get d "startTime" = Some start_time ->
    exists booking,
      booking_data cfg (JDict d) = Ok (Some (JDict booking))
      /\ dict_get booking "calendarId" = Some (json_of_env (GHL_CALENDAR_ID cfg))
      /\ dict_get booking "selectedSlot" = Some start_time
      /\ dict_get booking "selectedTimezone" = Some (JStr (GHL_TIMEZONE cfg))
      /\ dict_get booking "phone" = Some (JStr (normalize_us_phone phone))
      /\ dict_get booking "email" = dict_get d "email"
      /\ dict_get booking "name" = dict_get d "name"
      /\ (forall k,
             In k (dict_keys booking) ->
             In k ["calendarId"; "selectedSlot"; "selectedTimezone"; "phone";
                   "email"; "name"]).
Proof using cfg.
  intros d phone start_time Hphone Hstart.
  unfold booking_data, py_contains. cbn [bind].
  rewrite (dict_in_get d "phone" _ Hphone), (dict_in_get d "startTime" _ Hstart).
  cbn [negb bind]. unfold py_getitem at 1. rewrite Hphone.
  cbn [bind normalize_json]. unfold py_getitem.
  rewrite !dict_get_set.
  change (String.eqb "phone" "startTime") with false.
  change (String.eqb "phone" "phone") with true.
  cbv iota. rewrite Hstart. cbn [bind].
  unfold dict_in. rewrite !dict_get_set.
  change (String.eqb "phone" "email") with false.
  change (String.eqb "phone" "name") with false.
  cbv iota.
  destruct (dict_get d "email") as [email|];
    destruct (dict_get d "name") as [name|]; cbn [bind];
    eexists; (split; [reflexivity|]);
    repeat (split; [reflexivity|]);
    intros k Hk; cbn [dict_keys map fst In] in Hk; cbn [In];
    repeat (destruct Hk as [<-|Hk]; [auto 10|]); destruct Hk.
Qed.

(** X15: the answer of [/book] follows the calendar service.  Once the
    object to send is built, the route answers 200 exactly when the service
    replies 200, and then with the body of the reply unchanged; every other
    reply, and a failed call, is answered with status 500. *)
Theorem X15_book_status_follows_upstream :
  forall (payload booking : json),
    booking_data cfg payload = Ok (Some booking) ->
    (forall body,
        book_appointment cfg ghl_book payload = Respond 200 body
        <-> ghl_book booking = Reply 200 body)
    /\ (exists status body,
           book_appointment cfg ghl_book payload = Respond status body
           /\ (status = 200%Z \/ status = 500%Z)).
Proof.
  intros payload booking Hb. unfold book_appointment. rewrite Hb.
  destruct (ghl_book booking) as [details|code data].
  - split.
    + intros body. split; discriminate.
    + eexists; eexists; split; [reflexivity | auto].
  - destruct (Z.eqb_spec code 200) as [->|Hne]; cbn [negb].
    + split.
      * intros body. split; intros [= <-]; reflexivity.
      * eexists; eexists; split; [reflexivity | auto].
    + split.
      * intros body. split; [discriminate | intros [= -> _]; contradiction].
      * eexists; eexists; split; [reflexivity | auto].
Qed.

End BookRoute.

Lemma X14_witness :
  exists booking,
    booking_data (mk_config (Some "cal") "America/Los_Angeles" None None)
      (JDict [("phone", JStr "(415) 555-2671");
              ("startTime", JStr "2024-06-10T09:00:00");
              ("name", JStr "Ada"); ("notes", JStr "call back")])
    = Ok (Some (JDict booking))
    /\ dict_get booking "calendarId" = Some (JStr "cal")
    /\ dict_get booking "selectedSlot" = Some (JStr "2024-06-10T09:00:00")
    /\ dict_get booking "selectedTimezone" = Some (JStr "America/Los_Angeles")
    /\ dict_get booking "phone" = Some (JStr "+14155552671")
    /\ dict_get booking "email" = None
    /\ dict_get booking "name" = Some (JStr "Ada")
    /\ (forall k,
           In k (dict_keys booking) ->
           In k ["calendarId"; "selectedSlot"; "selectedTimezone"; "phone";
                 "email"; "name"]).
Proof.
  exact (X14_booking_data_fields
           (mk_config (Some "cal") "America/Los_Angeles" None None)
           [("phone", JStr "(415) 555-2671");
            ("startTime", JStr "2024-06-10T09:00:00");
            ("name", JStr "Ada"); ("notes", JStr "call back")]
           "(415) 555-2671" (JStr "2024-06-10T09:00:00") eq_refl eq_refl).
Defined.

Lemma X13_witness :
  book_program (mk_config None "America/Los_Angeles" None None)
    (JDict [("phone", JStr "415 555 2671")])
  = Answer
      (Respond 400
         (JDict [("error",
                  JStr "Missing required fields: 'phone' and/or 'startTime'")])).
Proof.
  apply (proj1 (X13_book_refuses_missing_fields
                  (mk_config None "America/Los_Angeles" None None)
                  (fun _ => Failed "unreachable"))
           [("phone", JStr "415 555 2671")]).
  right. reflexivity.
Defined.

Lemma X15_witness :
  (forall body,
      book_appointment (mk_config None "UTC" None None)
        (fun _ => Reply 422 (JDict [("msg", JStr "slot taken")]))
        (JDict [("phone", JStr "4155552671"); ("startTime", JInt 5)])
      = Respond 200 body
      <-> Reply 422 (JDict [("msg", JStr "slot taken")]) = Reply 200 body)
  /\ (exists status body,
         book_appointment (mk_config None "UTC" None None)
           (fun _ => Reply 422 (JDict [("msg", JStr "slot taken")]))
           (JDict [("phone", JStr "4155552671"); ("startTime", JInt 5)])
         = Respond status body
         /\ (status = 200%Z \/ status = 500%Z)).
Proof.
  exact (X15_book_status_follows_upstream
           (mk_config None "UTC" None None)
           (fun _ => Reply 422 (JDict [("msg", JStr "slot taken")]))
           (JDict [("phone", JStr "4155552671"); ("startTime", JInt 5)])
           _ eq_refl).
Defined.

Section LeadRoute.

Variable cfg : config.
Variable vapi_call : json -> http_reply.

(** The route is its program run against the voice service. *)
Lemma ghl_new_lead_webhook_run (data : json) :
  ghl_new_lead_webhook cfg vapi_call data = run vapi_call (lead_program cfg data).
Proof.
  unfold ghl_new_lead_webhook, lead_program.
  destruct (lead_call cfg data) as [[call|]|e]; reflexivity.
Qed.

(** X16: a lead that is empty, null, or an object without ["phone"] is
    refused without a call to the voice service: the program of the route is
    the answer itself, with status 400.  The route is this program run
    against the service. *)
Theorem X16_lead_refuses_missing_phone :
  (forall data,
      py_bool data = false ->
      lead_program cfg data
      = Answer (Respond 400 (JDict [("error", JStr "Missing required lead data")])))
  /\ (forall d,
         dict_in "phone" d = false ->
         lead_program cfg (JDict d)
         = Answer
             (Respond 400 (JDict [("error", JStr "Missing required lead data")])))
  /\ (forall data,
         ghl_new_lead_webhook cfg vapi_call data
         = run vapi_call (lead_program cfg data)).
Proof.
  split; [|split; [|exact ghl_new_lead_webhook_run]].
  - intros data H. unfold lead_program, lead_call. now rewrite H.
  - intros d H. unfold lead_program, lead_call.
    destruct (py_bool (JDict d)); cbn [negb]; [|reflexivity].
    unfold py_contains. cbn [bind]. now rewrite H.
Qed.

(** X17: a lead with a string ["phone"] triggers one call with the
    normalised phone, the name and the email of the lead or the defaults
    "Unknown" and "ghost@fallback.ai", and the source "Facebook Lead"; the
    route then answers 200 with the body of the reply whatever the status of
    the reply is, and 500 only when the call itself fails. *)
Theorem X17_lead_call_and_answer :
  forall (d : dict json) (phone : string),
    dict_get d "phone" = Some (JStr phone) ->
    lead_call cfg (JDict d)
    = Ok (Some
            (JDict [("agent_id", json_of_env (VAPI_AGENT_ID cfg));
                    ("phone", JStr (normalize_us_phone phone));
                    ("metadata",
                     JDict [("name",
                             match dict_get d "name" with
                             | Some name => name
                             | None => JStr "Unknown"
                             end);
                            ("email",
                             match dict_get d "email" with
                             | Some email => email
                             | None => JStr "ghost@fallback.ai"
                             end);
                            ("source", JStr "Facebook Lead")])]))
    /\ (forall call status body,
           lead_call cfg (JDict d) = Ok (Some call) ->
           vapi_call call = Reply status body ->
           ghl_new_lead_webhook cfg vapi_call (JDict d)
           = Respond 200 (JDict [("status", JStr "VAPI call triggered");
                                 ("vapi_response", body)]))
    /\ (forall call details,
           lead_call cfg (JDict d) = Ok (Some call) ->
           vapi_call call = Failed details ->
           ghl_new_lead_webhook cfg vapi_call (JDict d)
           = Respond 500 (JDict [("error", JStr "VAPI call failed");
                                 ("details", JStr details)])).
Proof.
  intros d phone Hphone. split; [|split].
  - unfold lead_call.
    replace (py_bool (JDict d)) with true
      by (destruct d; [discriminate | reflexivity]).
    cbn [negb]. unfold py_contains. cbn [bind].
    rewrite (dict_in_get d "phone" _ Hphone). cbn [negb].
    unfold py_get, py_getitem. cbn [bind]. rewrite Hphone. reflexivity.
  - intros call status body Hcall Hreply. unfold ghl_new_lead_webhook.
    now rewrite Hcall, Hreply.
  - intros call details Hcall Hreply. unfold ghl_new_lead_webhook.
    now rewrite Hcall, Hreply.
Qed.

End LeadRoute.

(** X18: a phone that is not a string is not answered, and no call is
    made.  When ["phone"] is present with a value that is not a string (a
    JSON number, say), the program of [/webhook/lead], and that of [/book]
    when ["startTime"] is present, is the [TypeError] of [re.sub] itself,
    before the call.  Each route is its program run against its service. *)
Theorem X18_non_string_phone_crashes :
  forall (cfg : config) (d : dict json) (v : json),
    dict_get d "phone" = Some v ->
    (forall s, v <> JStr s) ->
    lead_program cfg (JDict d) = Answer (Crash TypeError)
    /\ (dict_in "startTime" d = true ->
        book_program cfg (JDict d) = Answer (Crash TypeError))
    /\ (forall call,
           ghl_new_lead_webhook cfg call (JDict d)
           = run call (lead_program cfg (JDict d))
           /\ book_appointment cfg call (JDict d)
              = run call (book_program cfg (JDict d))).
Proof.
  intros cfg d v Hphone Hv.
  assert (Hn : normalize_json v = Raise TypeError).
  { destruct v; try reflexivity. exfalso. now apply (Hv s). }
  split; [|split].
  - unfold lead_program, lead_call.
    replace (py_bool (JDict d)) with true
      by (destruct d; [discriminate | reflexivity]).
    cbn [negb]. unfold py_contains. cbn [bind].
    rewrite (dict_in_get d "phone" _ Hphone). cbn [negb].
    unfold py_get, py_getitem. cbn [bind]. rewrite Hphone. cbn [bind].
    now rewrite Hn.
  - intros Hstart. unfold book_program, booking_data, py_contains.
    cbn [bind]. rewrite (dict_in_get d "phone" _ Hphone), Hstart.
    cbn [negb bind]. unfold py_getitem at 1. rewrite Hphone. cbn [bind].
    now rewrite Hn.
  - intros call. split.
    + apply ghl_new_lead_webhook_run.
    + apply book_appointment_run.
Qed.

Lemma X18_witness :
  lead_program (mk_config None "UTC" None None)
    (JDict [("phone", JInt 4155552671); ("startTime", JStr "2024-06-10T09:00:00")])
  = Answer (Crash TypeError)
  /\ (dict_in "startTime"
        [("phone", JInt 4155552671); ("startTime", JStr "2024-06-10T09:00:00")]
      = true ->
      book_program (mk_config None "UTC" None None)
        (JDict [("phone", JInt 4155552671);
                ("startTime", JStr "2024-06-10T09:00:00")])
      = Answer (Crash TypeError)).
Proof.
  destruct (X18_non_string_phone_crashes (mk_config None "UTC" None None)
              [("phone", JInt 4155552671);
               ("startTime", JStr "2024-06-10T09:00:00")]
              (JInt 4155552671) eq_refl
              (fun s (H : JInt 4155552671 = JStr s) =>
                 eq_ind (JInt 4155552671)
                        (fun x => match x with JInt _ => True | _ => False end)
                        I (JStr s) H))
    as (Hlead & Hbook & _).
  split; assumption.
Defined.

Lemma X16_witness :
  lead_program (mk_config None "UTC" None None) (JDict [("name", JStr "Ada")])
  = Answer (Respond 400 (JDict [("error", JStr "Missing required lead data")])).
Proof.
  apply (proj1 (proj2 (X16_lead_refuses_missing_phone
                         (mk_config None "UTC" None None)
                         (fun _ => Failed "unreachable")))).
  reflexivity.
Defined.

Lemma X17_witness :
  ghl_new_lead_webhook (mk_config None "UTC" None (Some "agent-7"))
    (fun _ => Reply 503 (JDict [("error", JStr "busy")]))
    (JDict [("phone", JStr "415-555-2671"); ("email", JStr "ada@example.org")])
  = Respond 200 (JDict [("status", JStr "VAPI call triggered");
                        ("vapi_response", JDict [("error", JStr "busy")])]).
Proof.
  apply (proj1 (proj2 (X17_lead_call_and_answer
                         (mk_config None "UTC" None (Some "agent-7"))
                         (fun _ => Reply 503 (JDict [("error", JStr "busy")]))
                         [("phone", JStr "415-555-2671");
                          ("email", JStr "ada@example.org")]
                         "415-555-2671" eq_refl))
           (JDict [("agent_id", JStr "agent-7");
                   ("phone", JStr "+14155552671");
                   ("metadata",
                    JDict [("name", JStr "Unknown");
                           ("email", JStr "ada@example.org");
                           ("source", JStr "Facebook Lead")])])
           503%Z (JDict [("error", JStr "busy")]));
    reflexivity.
Defined.

Lemma X6_witness :
  get_slots_program decimal (fun _ => "") fromisoformat strftime_A example_config
    (example_request [("startDate", JInt 1718000000)])
  = Answer (Respond 200 invalid_dates_body).
Proof.
  apply (proj1 (proj2 (proj2 (X6_missing_dates_are_reported
                         decimal (fun _ => "") fromisoformat strftime_A
                         example_config (fun _ => Failed "unreachable"))))
           _
           [("toolCalls",
             JList [JDict [("id", JStr "call_1");
                           ("function",
                            JDict [("name", JStr "get_slots");
                                   ("arguments",
                                    JDict [("startDate", JInt 1718000000)])])]])]
           [("id", JStr "call_1");
            ("function",
             JDict [("name", JStr "get_slots");
                    ("arguments", JDict [("startDate", JInt 1718000000)])])]
           [("name", JStr "get_slots");
            ("arguments", JDict [("startDate", JInt 1718000000)])]
           [("startDate", JInt 1718000000)]
           []).
  - reflexivity.
  - reflexivity.
  - reflexivity.
  - reflexivity.
  - right. split; [now exists 1718000000%Z | reflexivity].
Defined.

Lemma X7_witness :
  get_slots_route decimal (fun _ => "") fromisoformat strftime_A example_config
    (fun _ => Failed "unreachable") (JDict [("message", JStr "hello")])
  = Crash AttributeError.
Proof.
  apply (proj1 (X7_malformed_message_crashes
                  decimal (fun _ => "") fromisoformat strftime_A
                  example_config (fun _ => Failed "unreachable"))
           [("message", JStr "hello")] (JStr "hello")).
  - reflexivity.
  - intros m. discriminate.
Defined.

Lemma X8_witness : 200%Z = 200%Z.
Proof.
  apply (X8_slots_route_answers_200
           decimal (fun _ => "") fromisoformat strftime_A example_config
           (fun _ => Failed "timeout")
           (example_request [("startDate", JStr "1718000000");
                             ("endDate", JInt 1718600000)])
           200%Z (fetch_failed_body (JStr "call_1") "timeout")).
  reflexivity.
Defined.

Lemma X11_witness :
  get_slots_route decimal (fun _ => "") fromisoformat strftime_A example_config
    (fun _ => Reply 200 (JDict example_reply))
    (example_request [("startDate", JStr "1718000000");
                      ("endDate", JInt 1718600000000)])
  = Respond 200
      (slots_body (JStr "call_1")
         (get_slots fromisoformat strftime_A
            ["2024-06-10T09:00:00-07:00"; "2024-06-12T14:00:00-07:00"])).
Proof.
  apply (X11_slots_route_groups_the_reply
           decimal (fun _ => "") fromisoformat strftime_A example_config
           (fun _ => Reply 200 (JDict example_reply))
           (example_request [("startDate", JStr "1718000000");
                             ("endDate", JInt 1718600000000)])
           1718000000%Z 1718600000000%Z (JStr "call_1") example_reply);
    reflexivity.
Defined.

Lemma X12_witness :
  get_slots_route decimal (fun _ => "") fromisoformat strftime_A example_config
    (fun _ => Reply 200 (JDict (example_reply ++ [("traceId", JStr "abc")])))
    (example_request [("startDate", JInt 1718000000);
                      ("endDate", JInt 1718600000)])
  = Crash AttributeError.
Proof.
  apply (proj1 (proj2 (X12_malformed_reply_crashes
                  decimal (fun _ => "") fromisoformat strftime_A example_config
                  (fun _ => Reply 200
                              (JDict (example_reply ++ [("traceId", JStr "abc")])))
                  (example_request [("startDate", JInt 1718000000);
                                    ("endDate", JInt 1718600000)])
                  1718000000%Z 1718600000%Z (JStr "call_1") eq_refl))
           example_reply [] "traceId" (JStr "abc")).
  - reflexivity.
  - reflexivity.
  - intros m. discriminate.
Defined.

(** X19: [fallback] carries all that the grouping needs: grouping the
    [fallback] list of a result gives that result again. *)
Theorem X19_regrouping_fallback :
  forall (parse : string -> option datetime) (name : datetime -> string)
         (l : list string),
    get_slots parse name (r_fallback (get_slots parse name l))
    = get_slots parse name l.
Proof.
  intros parse name l. rewrite get_slots_fallback.
  unfold get_slots, group_loop. now rewrite <- (loop_skips_invalid parse name l).
Qed.

(** X20: dates that are floats.  A [startDate] that is an infinity makes
    [int] raise [OverflowError], which the route does not catch; one that is
    not a number makes it raise [ValueError], which is reported as invalid
    dates; a finite one is truncated toward zero. *)
Theorem X20_float_dates :
  forall (int_of_str : string -> option Z) (py_str : json -> string)
         (parse : string -> option datetime) (name : datetime -> string)
         (cfg : config) (ghl_slots : json -> http_reply)
         (d m t f a : dict json) (more : list json),
    dict_get d "message" = Some (JDict m) ->
    dict_get m "toolCalls" = Some (JList (JDict t :: more)) ->
    dict_get t "function" = Some (JDict f) ->
    dict_get f "arguments" = Some (JDict a) ->
    (forall negative,
        dict_get a "startDate" = Some (JFloat (FInf negative)) ->
        get_slots_route int_of_str py_str parse name cfg ghl_slots (JDict d)
        = Crash OverflowError)
    /\ (dict_get a "startDate" = Some (JFloat FNan) ->
        get_slots_route int_of_str py_str parse name cfg ghl_slots (JDict d)
        = Respond 200 invalid_dates_body)
    /\ (forall mant e end_ts,
           dict_get a "startDate" = Some (JFloat (FFinite mant e)) ->
           dict_get a "endDate" = Some (JInt end_ts) ->
           (e < 0)%Z ->
           decode_request int_of_str (JDict d)
           = Ok (Z.quot mant (2 ^ (- e)), end_ts,
                 match dict_get t "id" with
                 | Some id => id
                 | None => JStr "unknown"
                 end)).
Proof.
  intros int_of_str py_str parse name cfg ghl_slots d m t f a more
         Hd Hm Ht Hf.
  assert (Htruthy : py_bool (JDict d) = true)
    by (destruct d; [discriminate | reflexivity]).
  pose proof (decode_request_shape int_of_str d m t f a more Hd Hm Ht Hf) as Hdec.
  split; [|split].
  - intros negative Hs. unfold get_slots_route. rewrite Htruthy, Hdec.
    unfold py_get. cbn [bind]. rewrite Hs. reflexivity.
  - intros Hs. unfold get_slots_route. rewrite Htruthy, Hdec.
    unfold py_get. cbn [bind]. rewrite Hs. reflexivity.
  - intros mant e end_ts Hs He Hneg. rewrite Hdec.
    unfold py_get. cbn [bind]. rewrite Hs, He. cbn [bind py_int int_of_float].
    destruct (Z.leb_spec 0 e); [lia | reflexivity].
Qed.

Lemma X20_witness :
  decode_request decimal
    (example_request [("startDate", JFloat (FFinite 3436000001 (-1)));
                      ("endDate", JInt 1718600000)])
  = Ok (Z.quot 3436000001 (2 ^ (- (-1))), 1718600000%Z, JStr "call_1").
Proof.
  apply (proj2 (proj2 (X20_float_dates
                         decimal (fun _ => "") fromisoformat strftime_A
                         example_config (fun _ => Failed "unreachable")
                         [("message",
                           JDict [("toolCalls",
                                   JList [JDict [("id", JStr "call_1");
                                                 ("function",
                                                  JDict [("name", JStr "get_slots");
                                                         ("arguments",
                                                          JDict [("startDate", JFloat (FFinite 3436000001 (-1)));
                                                                 ("endDate", JInt 1718600000)])])]])])]
                         [("toolCalls",
                           JList [JDict [("id", JStr "call_1");
                                         ("function",
                                          JDict [("name", JStr "get_slots");
                                                 ("arguments",
                                                  JDict [("startDate", JFloat (FFinite 3436000001 (-1)));
                                                         ("endDate", JInt 1718600000)])])]])]
                         [("id", JStr "call_1");
                          ("function",
                           JDict [("name", JStr "get_slots");
                                  ("arguments",
                                   JDict [("startDate", JFloat (FFinite 3436000001 (-1)));
                                          ("endDate", JInt 1718600000)])])]
                         [("name", JStr "get_slots");
                          ("arguments",
                           JDict [("startDate", JFloat (FFinite 3436000001 (-1)));
                                  ("endDate", JInt 1718600000)])]
                         [("startDate", JFloat (FFinite 3436000001 (-1)));
                          ("endDate", JInt 1718600000)]
                         [] eq_refl eq_refl eq_refl eq_refl))
           3436000001%Z (-1)%Z 1718600000%Z eq_refl eq_refl).
  reflexivity.
Defined.
